(** * The transform stage of the newspaper ETL pipeline

    A shallow embedding of [final_project_live/transform/main.py]: the
    cleaning pipeline that reads a table of scraped articles, derives the
    [newspaper_uid], [host], [uid], [n_tokens_title] and [n_tokens_body]
    columns, repairs missing titles, removes duplicated titles and drops
    incomplete rows.

    Text is modelled as Rocq strings whose characters are the Unicode code
    points below 256; the table is a list of labelled rows; Python
    exceptions are the [Raise] results of an error monad.  The library
    calls follow pandas 1.x and 2.x ([applymap], [apply] on a frame
    without rows, index alignment of [df[col] = series]), CPython's
    [urllib.parse] and RFC 1321; the tokenizer, the stop words, the file
    format and the address check of bracketed hosts are parameters.

    The tables are those of the scraper: the columns [url], [title] and
    [body] hold text or nothing (a file whose column [read_csv] reads as
    numbers is not modelled), and the file names are names in the working
    directory (writing into a directory that does not exist, where
    [to_csv] raises [OSError], is not modelled). *)

From Stdlib Require Import ZArith List Ascii String Bool Lia.
From stdpp Require Import base option list gmap strings.

Local Open Scope Z_scope.

(** ** Python exceptions as an error monad *)

Inductive exn : Type :=
| AttributeError
| TypeError
| ValueError
| FileNotFoundError
| ParserError.

Inductive result (A : Type) : Type :=
| Ok (a : A)
| Raise (e : exn).
Arguments Ok {A} a.
Arguments Raise {A} e.

Definition bind {A B : Type} (m : result A) (k : A → result B) : result B :=
  match m with
  | Ok a => k a
  | Raise e => Raise e
  end.

Notation "'do' x <- m ; k" := (bind m (fun x => k))
  (at level 10, x name, m at level 100, k at level 200).

(** [for x in xs: f(x)], stopping at the first exception. *)
Fixpoint mapM {A B : Type} (f : A → result B) (xs : list A) : result (list B) :=
  match xs with
  | [] => Ok []
  | x :: xs' => do y <- f x; do ys <- mapM f xs'; Ok (y :: ys)
  end.

(** ** Python strings *)

Module Py.

Definition chars (s : string) : list ascii := list_ascii_of_string s.
Definition str (l : list ascii) : string := string_of_list_ascii l.

Definition ord (c : ascii) : Z := Z.of_N (N_of_ascii c).

Definition eqc (a b : ascii) : bool := Ascii.eqb a b.

(** [c in cs] for a character and a string of characters. *)
Definition char_in (c : ascii) (cs : string) : bool := existsb (eqc c) (chars cs).

(** [str.isalpha] on one character: the letters of Unicode below 256. *)
Definition isalpha_char (c : ascii) : bool :=
  let n := ord c in
  ((65 <=? n) && (n <=? 90)) || ((97 <=? n) && (n <=? 122))
  || (n =? 170) || (n =? 181) || (n =? 186)
  || ((192 <=? n) && (n <=? 214)) || ((216 <=? n) && (n <=? 246))
  || ((248 <=? n) && (n <=? 255)).

(** [token.isalpha()]: at least one character, all of them letters. *)
Definition isalpha (s : string) : bool :=
  match chars s with
  | [] => false
  | cs => forallb isalpha_char cs
  end.

Definition lower_char (c : ascii) : ascii :=
  let n := ord c in
  if ((65 <=? n) && (n <=? 90)) || ((192 <=? n) && (n <=? 214))
     || ((216 <=? n) && (n <=? 222))
  then ascii_of_N (Z.to_N (n + 32))
  else c.

(** [token.lower()] *)
Definition lower (s : string) : string := str (map lower_char (chars s)).

(** [s.split(sep)] for a one-character separator: the pieces between the
    separators, empty pieces included; never the empty list. *)
Fixpoint split_chars (sep : ascii) (cs : list ascii) : list (list ascii) :=
  match cs with
  | [] => [[]]
  | c :: cs' =>
      if eqc c sep then [] :: split_chars sep cs'
      else match split_chars sep cs' with
           | [] => [[c]]
           | p :: ps => (c :: p) :: ps
           end
  end.

Definition split (sep : ascii) (s : string) : list string :=
  map str (split_chars sep (chars s)).

(** [sep.join(pieces)] *)
Fixpoint join (sep : string) (pieces : list string) : string :=
  match pieces with
  | [] => EmptyString
  | [p] => p
  | p :: ps => String.append p (String.append sep (join sep ps))
  end.

(** [s.replace(a, b)] for single characters. *)
Definition replace_char (a b : ascii) (s : string) : string :=
  str (map (fun c => if eqc c a then b else c) (chars s)).

(** [s.encode()]: the UTF-8 encoding, one byte for a code point below 128
    and two bytes for one from 128 to 255. *)
Definition encode_char (c : ascii) : list Z :=
  let n := ord c in
  if n <? 128 then [n]
  else [Z.lor 192 (Z.shiftr n 6); Z.lor 128 (Z.land n 63)].

Definition encode (s : string) : list Z := flat_map encode_char (chars s).

End Py.

(** ** hashlib.md5 (RFC 1321) *)

Module MD5.

Definition w32 (x : Z) : Z := x mod 2 ^ 32.

Definition rotl (x s : Z) : Z :=
  w32 (Z.lor (Z.shiftl x s) (Z.shiftr x (32 - s))).

Definition not32 (x : Z) : Z := Z.lxor x 0xffffffff.

Definition shifts : list Z :=
  [7; 12; 17; 22; 7; 12; 17; 22; 7; 12; 17; 22; 7; 12; 17; 22;
   5; 9; 14; 20; 5; 9; 14; 20; 5; 9; 14; 20; 5; 9; 14; 20;
   4; 11; 16; 23; 4; 11; 16; 23; 4; 11; 16; 23; 4; 11; 16; 23;
   6; 10; 15; 21; 6; 10; 15; 21; 6; 10; 15; 21; 6; 10; 15; 21].

Definition sines : list Z :=
  [ 0xd76aa478; 0xe8c7b756; 0x242070db; 0xc1bdceee;
    0xf57c0faf; 0x4787c62a; 0xa8304613; 0xfd469501;
    0x698098d8; 0x8b44f7af; 0xffff5bb1; 0x895cd7be;
    0x6b901122; 0xfd987193; 0xa679438e; 0x49b40821;
    0xf61e2562; 0xc040b340; 0x265e5a51; 0xe9b6c7aa;
    0xd62f105d; 0x02441453; 0xd8a1e681; 0xe7d3fbc8;
    0x21e1cde6; 0xc33707d6; 0xf4d50d87; 0x455a14ed;
    0xa9e3e905; 0xfcefa3f8; 0x676f02d9; 0x8d2a4c8a;
    0xfffa3942; 0x8771f681; 0x6d9d6122; 0xfde5380c;
    0xa4beea44; 0x4bdecfa9; 0xf6bb4b60; 0xbebfbc70;
    0x289b7ec6; 0xeaa127fa; 0xd4ef3085; 0x04881d05;
    0xd9d4d039; 0xe6db99e5; 0x1fa27cf8; 0xc4ac5665;
    0xf4292244; 0x432aff97; 0xab9423a7; 0xfc93a039;
    0x655b59c3; 0x8f0ccc92; 0xffeff47d; 0x85845dd1;
    0x6fa87e4f; 0xfe2ce6e0; 0xa3014314; 0x4e0811a1;
    0xf7537e82; 0xbd3af235; 0x2ad7d2bb; 0xeb86d391 ].

Record state : Type := mkState { sa : Z; sb : Z; sc : Z; sd : Z }.

Definition init : state :=
  mkState 0x67452301 0xefcdab89 0x98badcfe 0x10325476.

(** Little-endian bytes of a 32-bit word, and back. *)
Definition word_bytes (w : Z) : list Z :=
  [Z.land w 255; Z.land (Z.shiftr w 8) 255;
   Z.land (Z.shiftr w 16) 255; Z.land (Z.shiftr w 24) 255].

Definition bytes_word (bs : list Z) : Z :=
  fold_right (fun b acc => Z.lor b (Z.shiftl acc 8)) 0 bs.

Fixpoint words (n : nat) (bs : list Z) : list Z :=
  match n with
  | O => []
  | S n' => bytes_word (firstn 4 bs) :: words n' (skipn 4 bs)
  end.

(** One of the 64 operations of a block. *)
Definition step (m : list Z) (st : state) (i : nat) : state :=
  let '(mkState a b c d) := st in
  let zi := Z.of_nat i in
  let '(f, g) :=
    if zi <? 16 then (Z.lor (Z.land b c) (Z.land (not32 b) d), zi)
    else if zi <? 32 then
      (Z.lor (Z.land d b) (Z.land (not32 d) c), (5 * zi + 1) mod 16)
    else if zi <? 48 then (Z.lxor (Z.lxor b c) d, (3 * zi + 5) mod 16)
    else (Z.lxor c (Z.lor b (not32 d)), (7 * zi) mod 16) in
  let f' := w32 (f + a + nth i sines 0 + nth (Z.to_nat g) m 0) in
  mkState d (w32 (b + rotl f' (nth i shifts 0))) b c.

Definition block (st : state) (chunk : list Z) : state :=
  let m := words 16 chunk in
  let st' := fold_left (step m) (seq 0 64) st in
  mkState (w32 (sa st + sa st')) (w32 (sb st + sb st'))
          (w32 (sc st + sc st')) (w32 (sd st + sd st')).

(** The message followed by 0x80, zeros up to 56 modulo 64, and the bit
    length as a 64-bit little-endian number. *)
Definition pad (msg : list Z) : list Z :=
  let len := Z.of_nat (length msg) in
  let zeros := Z.to_nat ((55 - len) mod 64) in
  let bits := (8 * len) mod 2 ^ 64 in
  msg ++ [128] ++ repeat 0 zeros
      ++ word_bytes (w32 bits) ++ word_bytes (Z.shiftr bits 32).

Fixpoint blocks (n : nat) (st : state) (bs : list Z) : state :=
  match n with
  | O => st
  | S n' => blocks n' (block st (firstn 64 bs)) (skipn 64 bs)
  end.

(** [hashlib.md5(data).digest()] *)
Definition digest (msg : list Z) : list Z :=
  let p := pad msg in
  let st := blocks (length p / 64) init p in
  word_bytes (sa st) ++ word_bytes (sb st)
    ++ word_bytes (sc st) ++ word_bytes (sd st).

Definition hex_digit (n : Z) : ascii :=
  nth (Z.to_nat n) (Py.chars "0123456789abcdef") "0"%char.

Definition hex_byte (b : Z) : list ascii :=
  [hex_digit (Z.shiftr b 4); hex_digit (Z.land b 15)].

(** The object returned by [hashlib.md5(data)]: it holds the bytes fed. *)
Record hash : Type := md5 { data : list Z }.

(** [hash_object.hexdigest()] *)
Definition hexdigest (h : hash) : string :=
  Py.str (flat_map hex_byte (digest (data h))).

End MD5.


(** ** urllib.parse.urlparse(url).netloc *)

Module Urllib.

Definition scheme_chars : string :=
  "abcdefghijklmnopqrstuvwxyzABCDEFGHIJKLMNOPQRSTUVWXYZ0123456789+-.".

(** C0 control characters and the space, stripped from the left. *)
Definition c0_or_space (c : ascii) : bool := Py.ord c <=? 32.

Fixpoint lstrip (p : ascii → bool) (cs : list ascii) : list ascii :=
  match cs with
  | [] => []
  | c :: cs' => if p c then lstrip p cs' else cs
  end.

(** Tab, carriage return and line feed are removed everywhere. *)
Definition unsafe_byte (c : ascii) : bool :=
  (Py.ord c =? 9) || (Py.ord c =? 13) || (Py.ord c =? 10).

(** [s.partition(sep)]: the text before the first [sep], whether [sep]
    was found, and the text after it. *)
Fixpoint partition (sep : ascii) (cs : list ascii)
  : list ascii * bool * list ascii :=
  match cs with
  | [] => ([], false, [])
  | c :: cs' =>
      if Py.eqc c sep then ([], true, cs')
      else let '(b, found, a) := partition sep cs' in (c :: b, found, a)
  end.

(** [s.rpartition(sep)[2]]: the text after the last [sep], all of [s]
    when there is none. *)
Fixpoint after_last (sep : ascii) (cs : list ascii) : list ascii :=
  match cs with
  | [] => []
  | c :: cs' =>
      if existsb (Py.eqc sep) cs' then after_last sep cs'
      else if Py.eqc c sep then cs' else cs
  end.

(** [_splitnetloc(url, 2)[0]] once the two slashes are gone: the text up
    to the first of [/], [?] and [#]. *)
Fixpoint splitnetloc (cs : list ascii) : list ascii :=
  match cs with
  | [] => []
  | c :: cs' => if Py.char_in c "/?#" then [] else c :: splitnetloc cs'
  end.

Definition is_ascii_alpha (c : ascii) : bool :=
  let n := Py.ord c in
  ((65 <=? n) && (n <=? 90)) || ((97 <=? n) && (n <=? 122)).

(** The url with its scheme and colon removed, when it has a scheme. *)
Definition strip_scheme (cs : list ascii) : list ascii :=
  let '(before, found, rest) := partition ":" cs in
  match before with
  | c0 :: _ =>
      if found && is_ascii_alpha c0
         && forallb (fun c => Py.char_in c scheme_chars) before
      then rest else cs
  | [] => cs
  end.

Section Netloc.

(** [_check_bracketed_host]: whether the text between the brackets is an
    IPv6 or IPvFuture address; decided by the [ipaddress] module. *)
Variable check_bracketed_host : string → bool.

(** [_check_bracketed_netloc]: true when it raises nothing. *)
Definition check_bracketed_netloc (netloc : list ascii) : bool :=
  let hostname_and_port := after_last "@" netloc in
  let '(before_bracket, have_open_br, bracketed) :=
    partition "[" hostname_and_port in
  if have_open_br then
    match before_bracket with
    | _ :: _ => false
    | [] =>
        let '(hostname, _, port) := partition "]" bracketed in
        match port with
        | c :: _ =>
            if Py.eqc c ":" then check_bracketed_host (Py.str hostname)
            else false
        | [] => check_bracketed_host (Py.str hostname)
        end
    end
  else
    let '(hostname, _, _) := partition ":" hostname_and_port in
    check_bracketed_host (Py.str hostname).

(** [urlparse(url).netloc] for a string; [ValueError] is "Invalid IPv6
    URL".  The NFKC check of the netloc rejects no code point below 256. *)
Definition netloc (url : string) : result string :=
  let url := lstrip c0_or_space (Py.chars url) in
  let url := List.filter (fun c => negb (unsafe_byte c)) url in
  let url := strip_scheme url in
  match url with
  | c1 :: c2 :: rest =>
      if Py.eqc c1 "/" && Py.eqc c2 "/" then
        let nl := splitnetloc rest in
        let has_open := existsb (Py.eqc "[") nl in
        let has_close := existsb (Py.eqc "]") nl in
        if xorb has_open has_close then Raise ValueError
        else if has_open && negb (check_bracketed_netloc nl)
        then Raise ValueError
        else Ok (Py.str nl)
      else Ok EmptyString
  | _ => Ok EmptyString
  end.

End Netloc.

End Urllib.

(** ** The regular expression [(?P<missing_titles>[^/]+)$] *)

Module Re.

Definition newline : ascii := ascii_of_nat 10.

(** [$] matches at the end of the text and just before a final newline. *)
Definition at_dollar (rest : list ascii) : bool :=
  match rest with
  | [] => true
  | [c] => Py.eqc c newline
  | _ => false
  end.

(** A match of [[^/]+$] starting at the head of [s]: the greedy [+] takes
    the longest run first and gives characters back until [$] matches. *)
Fixpoint match_here (s : list ascii) : option (list ascii) :=
  match s with
  | [] => None
  | c :: s' =>
      if Py.eqc c "/" then None
      else match match_here s' with
           | Some m => Some (c :: m)
           | None => if at_dollar s' then Some [c] else None
           end
  end.

(** [re.search]: the match at the leftmost position that has one. *)
Fixpoint search (s : list ascii) : option (list ascii) :=
  match match_here s with
  | Some m => Some m
  | None => match s with
            | [] => None
            | _ :: s' => search s'
            end
  end.

End Re.

(** ** Tables *)

(** A cell is a value or pandas' missing-value marker. *)
Inductive cell (A : Type) : Type :=
| NaN
| Val (a : A).
Arguments NaN {A}.
Arguments Val {A} a.

(** [x.isna()] on one cell *)
Definition isna {A : Type} (c : cell A) : bool :=
  match c with
  | NaN => true
  | Val _ => false
  end.

(** A column that may not have been created yet. *)
Definition column_isna {A : Type} (c : option (cell A)) : bool :=
  match c with
  | Some x => isna x
  | None => false
  end.

(** A record as [read_csv] parses it from the scraper's output: every
    field is text or missing. *)
Record RawRow : Type := mkRaw {
  raw_url : cell string;
  raw_title : cell string;
  raw_body : cell string }.

(** A row of the table being cleaned.  The columns [url], [title] and
    [body] come from the file; the others are [None] until the stage that
    creates them has run. *)
Record Row : Type := mkRow {
  url : cell string;
  title : cell string;
  body : cell string;
  newspaper_uid : option (cell string);
  host : option (cell string);
  n_tokens_title : option (cell nat);
  n_tokens_body : option (cell nat) }.

(** The row labels: the positions [read_csv] gives, then the uids. *)
Inductive label : Type :=
| RangeIndex (i : nat)
| Uid (s : string).

#[global] Instance label_eq_dec : EqDecision label.
Proof. solve_decision. Defined.

#[global] Instance cell_eq_dec {A : Type} `{EqDecision A} : EqDecision (cell A).
Proof. solve_decision. Defined.

(** A DataFrame: the rows in order, each with its index label. *)
Definition DataFrame : Type := list (label * Row).

(** A Series: values in order, each with its index label. *)
Definition Series (A : Type) : Type := list (label * A).

Module Pandas.

Definition index {A : Type} (s : list (label * A)) : list label := map fst s.

Definition row_has_na (r : Row) : bool :=
  isna (url r) || isna (title r) || isna (body r)
  || column_isna (newspaper_uid r) || column_isna (host r)
  || column_isna (n_tokens_title r) || column_isna (n_tokens_body r).

(** [df.dropna()]: the rows with no missing value in any column. *)
Definition dropna (df : DataFrame) : DataFrame :=
  List.filter (fun lr => negb (row_has_na (snd lr))) df.

(** [series[l]] for a series with distinct labels *)
Fixpoint at_label {A : Type} (l : label) (s : Series A) : cell A :=
  match s with
  | [] => NaN
  | (l', v) :: s' => if decide (l = l') then Val v else at_label l s'
  end.

(** The values [df[col] = series] stores: the series as it is when its
    index equals the frame's, else the series reindexed by the frame's
    index, which pandas refuses when the series has a repeated label. *)
Definition reindex_for_setitem {A : Type} (s : Series A) (df : DataFrame)
  : result (list (cell A)) :=
  if decide (index s = index df) then Ok (map (fun lv => Val (snd lv)) s)
  else if decide (NoDup (index s)) then Ok (map (fun l => at_label l s) (index df))
  else Raise ValueError.

(** [df[col] = values] with one value per row, in order. *)
Definition set_column {V : Type} (set : V → Row → Row) (df : DataFrame)
    (values : list V) : DataFrame :=
  zip_with (fun lr v => (fst lr, set v (snd lr))) df values.

(** [df.set_index(col)] with the labels already taken out of the column *)
Definition set_index (df : DataFrame) (labels : list label) : DataFrame :=
  zip_with (fun lr l => (l, snd lr)) df labels.

(** [df.drop_duplicates(subset=[col], keep='first')]: a row is dropped
    when an earlier row has the same value in the column; missing values
    count as equal to each other. *)
Fixpoint drop_duplicates_from (seen : list (cell string))
    (col : Row → cell string) (df : DataFrame) : DataFrame :=
  match df with
  | [] => []
  | lr :: df' =>
      if bool_decide (col (snd lr) ∈ seen)
      then drop_duplicates_from seen col df'
      else lr :: drop_duplicates_from (col (snd lr) :: seen) col df'
  end.

Definition drop_duplicates (col : Row → cell string) (df : DataFrame)
  : DataFrame :=
  drop_duplicates_from [] col df.

End Pandas.

(** Column assignments on one row *)
Definition set_newspaper_uid (v : cell string) (r : Row) : Row :=
  mkRow (url r) (title r) (body r) (Some v) (host r)
        (n_tokens_title r) (n_tokens_body r).
Definition set_host (v : cell string) (r : Row) : Row :=
  mkRow (url r) (title r) (body r) (newspaper_uid r) (Some v)
        (n_tokens_title r) (n_tokens_body r).
Definition set_title (v : cell string) (r : Row) : Row :=
  mkRow (url r) v (body r) (newspaper_uid r) (host r)
        (n_tokens_title r) (n_tokens_body r).
Definition set_body (v : cell string) (r : Row) : Row :=
  mkRow (url r) (title r) v (newspaper_uid r) (host r)
        (n_tokens_title r) (n_tokens_body r).
Definition set_n_tokens_title (v : cell nat) (r : Row) : Row :=
  mkRow (url r) (title r) (body r) (newspaper_uid r) (host r)
        (Some v) (n_tokens_body r).
Definition set_n_tokens_body (v : cell nat) (r : Row) : Row :=
  mkRow (url r) (title r) (body r) (newspaper_uid r) (host r)
        (n_tokens_title r) (Some v).

(** ** What the module takes from its environment *)

Class External : Type := {
  (** the contents of a file *)
  csv : Type;
  (** [pd.read_csv]: the records of a file, or a parser error *)
  read_csv : csv → result (list RawRow);
  (** [df.to_csv] *)
  to_csv : DataFrame → csv;
  (** [nltk.word_tokenize] *)
  word_tokenize : string → list string;
  (** [set(stopwords.words('spanish'))] *)
  stop_words : gset string;
  (** the address check of [urlparse] on a bracketed host *)
  check_bracketed_host : string → bool }.

(** The files of the working directory, by name *)
Abbreviation filesystem := (gmap string csv) (only parsing).

(** ** DataFrame.apply and Series.apply *)

(** What [df.apply(f, axis=1)] returns: a Series with one value per row,
    or, for a frame without rows, possibly the frame itself. *)
Inductive applied (A : Type) : Type :=
| AppliedSeries (s : Series A)
| AppliedFrame (df : DataFrame).
Arguments AppliedSeries {A} s.
Arguments AppliedFrame {A} df.

(** The row pandas passes to [f] to find out what an empty frame should
    give: every column missing. *)
Definition probe_row : Row := mkRow NaN NaN NaN None None None None.

(** [df.apply(f, axis=1)].  On a frame without rows pandas calls [f] once
    on [probe_row]: when that raises, the exception is swallowed and a
    copy of the empty frame is returned; when it returns a value, the
    result is an empty Series. *)
Definition apply_rows {A : Type} (f : Row → result A) (df : DataFrame)
  : result (applied A) :=
  match df with
  | [] =>
      match f probe_row with
      | Ok _ => Ok (AppliedSeries [])
      | Raise _ => Ok (AppliedFrame [])
      end
  | _ =>
      do s <- mapM (fun lr => do v <- f (snd lr); Ok (fst lr, v)) df;
      Ok (AppliedSeries s)
  end.

(** [series.apply(f)] for an [f] that may raise, and for one that cannot *)
Definition apply_values {A B : Type} (f : A → result B) (s : Series A)
  : result (Series B) :=
  mapM (fun lv => do v <- f (snd lv); Ok (fst lv, v)) s.

Definition apply {A B : Type} (f : A → B) (s : Series A) : Series B :=
  map (fun lv => (fst lv, f (snd lv))) s.

Definition values {A : Type} (s : Series A) : list A := map snd s.

(** ** The cleaning steps *)

Section Transform.

Context `{External}.

(** The table [read_csv] builds: the records in order, labelled by
    position, with the three columns of the file. *)
Definition frame_of_records (records : list RawRow) : DataFrame :=
  imap (fun i r =>
          (RangeIndex i,
           mkRow (raw_url r) (raw_title r) (raw_body r) None None None None))
       records.

Definition _read_data (filename : string) (fs : filesystem)
  : result DataFrame :=
  match fs !! filename with
  | None => Raise FileNotFoundError
  | Some contents => do records <- read_csv contents; Ok (frame_of_records records)
  end.

(** [filename.split('_')[0]] *)
Definition _extract_newspaper_uid (filename : string) : string :=
  match Py.split "_" filename with
  | first :: _ => first
  | [] => EmptyString
  end.

(** [df['newspaper_uid'] = newspaper_uid] *)
Definition _add_newspaper_uid_column (df : DataFrame) (newspaper_uid : string)
  : DataFrame :=
  map (fun lr => (fst lr, set_newspaper_uid (Val newspaper_uid) (snd lr))) df.

(** [urlparse(url).netloc]; a missing url is a float, which [urlparse]
    tries to decode. *)
Definition urlparse_netloc (url : cell string) : result string :=
  match url with
  | Val u => Urllib.netloc check_bracketed_host u
  | NaN => Raise AttributeError
  end.

Definition _extract_host (df : DataFrame) : result DataFrame :=
  do hosts <- mapM (fun lr => urlparse_netloc (url (snd lr))) df;
  Ok (Pandas.set_column set_host df (map Val hosts)).

(** [series.str]: pandas refuses the accessor on a numeric column, and
    the url column of a file is numeric when it has rows and every url
    is missing. *)
Definition str_accessor (column selected : list (cell string))
  : result (list (cell string)) :=
  match column with
  | _ :: _ => if forallb isna column then Raise AttributeError else Ok selected
  | [] => Ok selected
  end.

(** [.str.extract(r'(?P<missing_titles>[^/]+)$')] on one cell *)
Definition str_extract (url : cell string) : cell string :=
  match url with
  | Val u =>
      match Re.search (Py.chars u) with
      | Some m => Val (Py.str m)
      | None => NaN
      end
  | NaN => NaN
  end.

(** [lambda title: title.split('-')]; a missing value is a float. *)
Definition split_title (title : cell string) : result (list string) :=
  match title with
  | Val t => Ok (Py.split "-" t)
  | NaN => Raise AttributeError
  end.

(** [df.loc[missing_titles_mask, 'title'] = missing_titles]: the rows of
    the mask take the values in order. *)
Fixpoint loc_set_title (df : DataFrame) (missing_titles : list string)
  : DataFrame :=
  match df with
  | [] => []
  | lr :: df' =>
      if isna (title (snd lr)) then
        match missing_titles with
        | t :: rest => (fst lr, set_title (Val t) (snd lr)) :: loc_set_title df' rest
        | [] => lr :: loc_set_title df' []
        end
      else lr :: loc_set_title df' missing_titles
  end.

Definition _fill_missing_titles (df : DataFrame) : result DataFrame :=
  let missing_titles_mask := fun lr : label * Row => isna (title (snd lr)) in
  let urls := map (fun lr => url (snd lr)) in
  do selected <- str_accessor (urls df) (urls (List.filter missing_titles_mask df));
  let extracted := map str_extract selected in
  do word_lists <- mapM split_title extracted;
  let missing_titles := map (Py.join " ") word_lists in
  Ok (loc_set_title df missing_titles).

(** [hashlib.md5(bytes(row['url'].encode()))]; a missing url is a float,
    which has no [encode]. *)
Definition url_hash (row : Row) : result MD5.hash :=
  match url row with
  | Val u => Ok (MD5.md5 (Py.encode u))
  | NaN => Raise AttributeError
  end.

(** On a frame without rows the first [apply] hands the frame back, the
    second does too (a column has no [hexdigest]), and pandas refuses to
    store a frame of several columns in the single column [uid]. *)
Definition _generate_uids_for_rows (df : DataFrame) : result DataFrame :=
  do hashes <- apply_rows url_hash df;
  match hashes with
  | AppliedSeries hash_objects =>
      let uids := apply MD5.hexdigest hash_objects in
      Ok (Pandas.set_index df (map Uid (values uids)))
  | AppliedFrame _ => Raise ValueError
  end.

(** [list(body)]; a missing body is a float, which is not iterable. *)
Definition letters_of (body : cell string) : result (list ascii) :=
  match body with
  | Val b => Ok (Py.chars b)
  | NaN => Raise TypeError
  end.

(** [letter.replace('\n', ' ')] *)
Definition replace_newline (letter : ascii) : ascii :=
  if Py.eqc letter Re.newline then " "%char else letter.

Definition _remove_new_lines_from_body (df : DataFrame) : result DataFrame :=
  do bodies <- apply_rows (fun row => Ok (body row)) df;
  match bodies with
  | AppliedSeries s =>
      do letters <- apply_values letters_of s;
      let replaced := apply (map replace_newline) letters in
      let stripped_body := apply Py.str replaced in
      Ok (Pandas.set_column set_body df (map Val (values stripped_body)))
  | AppliedFrame _ => Raise ValueError
  end.

(** [nltk.word_tokenize(row[column_name])]; a missing text is a float. *)
Definition tokenize_cell (text : cell string) : result (list string) :=
  match text with
  | Val t => Ok (word_tokenize t)
  | NaN => Raise TypeError
  end.

Definition not_stop_word (word : string) : bool :=
  negb (bool_decide (word ∈ stop_words)).

(** When [dropna] leaves no row, the first [apply] hands the empty frame
    back; the second then filters an empty column to the empty list, from
    which pandas cannot build a Series over the frame's columns. *)
Definition _tokenize_column (df : DataFrame) (column_name : Row → cell string)
  : result (Series nat) :=
  do tokens <- apply_rows (fun row => tokenize_cell (column_name row))
                          (Pandas.dropna df);
  match tokens with
  | AppliedSeries s =>
      let alphabetic := apply (List.filter Py.isalpha) s in
      let lowered := apply (map Py.lower) alphabetic in
      let valid := apply (List.filter not_stop_word) lowered in
      Ok (apply (@length string) valid)
  | AppliedFrame _ => Raise ValueError
  end.

Definition _tokenize_title (df : DataFrame) : result DataFrame :=
  do counts <- _tokenize_column df title;
  do column <- Pandas.reindex_for_setitem counts df;
  Ok (Pandas.set_column set_n_tokens_title df column).

Definition _tokenize_body (df : DataFrame) : result DataFrame :=
  do counts <- _tokenize_column df body;
  do column <- Pandas.reindex_for_setitem counts df;
  Ok (Pandas.set_column set_n_tokens_body df column).

Definition _remove_duplicate_entries (df : DataFrame)
    (column_name : Row → cell string) : DataFrame :=
  Pandas.drop_duplicates column_name df.

Definition _drop_rows_with_missing_values (df : DataFrame) : DataFrame :=
  Pandas.dropna df.

(** [df.to_csv('clean_' + filename)], for a [filename] in the working
    directory: the write is taken to succeed.  With a directory part in
    [filename] the target directory would have to exist, and [to_csv]
    raises [OSError] where it does not; that case is outside the model. *)
Definition _save_data (df : DataFrame) (filename : string) (fs : filesystem)
  : filesystem :=
  <[String.append "clean_" filename := to_csv df]> fs.

Definition main (filename : string) (fs : filesystem)
  : result (DataFrame * filesystem) :=
  do df <- _read_data filename fs;
  let newspaper_uid := _extract_newspaper_uid filename in
  let df := _add_newspaper_uid_column df newspaper_uid in
  do df <- _extract_host df;
  do df <- _fill_missing_titles df;
  do df <- _generate_uids_for_rows df;
  do df <- _remove_new_lines_from_body df;
  do df <- _tokenize_title df;
  do df <- _tokenize_body df;
  let df := _remove_duplicate_entries df title in
  let df := _drop_rows_with_missing_values df in
  let fs := _save_data df filename fs in
  Ok (df, fs).

End Transform.

(** ** Reading the steps row by row *)

Section RowByRow.

Context `{External}.

(** The four lambdas of [_tokenize_column] on one text *)
Definition count_tokens (text : string) : nat :=
  let tokens := word_tokenize text in
  let alphabetic := List.filter Py.isalpha tokens in
  let lowered := map Py.lower alphabetic in
  let valid := List.filter not_stop_word lowered in
  length valid.

(** A token the count keeps: at least one character, letters only, and
    its lowercase form is no stop word. *)
Definition alphabetic (token : string) : Prop :=
  token ≠ EmptyString ∧ Forall (fun c => Py.isalpha_char c = true) (Py.chars token).

Definition counted (token : string) : Prop :=
  alphabetic token ∧ Py.lower token ∉ stop_words.

#[global] Instance counted_dec (token : string) : Decision (counted token).
Proof. unfold counted, alphabetic. apply _. Defined.

(** The body with every newline replaced by a space *)
Definition normalize_body (b : string) : string :=
  Py.str (map replace_newline (Py.chars b)).

(** The title derived from the url of a row without title *)
Definition fallback_title (u : string) : result string :=
  do word_list <- split_title (str_extract (Val u));
  Ok (Py.join " " word_list).

(** The title a row has after the repair *)
Definition repaired_title (r : RawRow) : result string :=
  match raw_title r with
  | Val t => Ok t
  | NaN =>
      match raw_url r with
      | Val u => fallback_title u
      | NaN => Raise AttributeError
      end
  end.

(** The id of a url *)
Definition assign_id (u : string) : string :=
  MD5.hexdigest (MD5.md5 (Py.encode u)).

(** What the steps before the deduplication make of one record *)
Definition clean_record (source_id : string) (r : RawRow)
  : result (label * Row) :=
  do h <- urlparse_netloc (raw_url r);
  do t <- repaired_title r;
  do letters <- letters_of (raw_body r);
  match raw_url r with
  | Val u =>
      let b := Py.str (map replace_newline letters) in
      Ok (Uid (assign_id u),
          mkRow (Val u) (Val t) (Val b) (Some (Val source_id)) (Some (Val h))
                (Some (Val (count_tokens t))) (Some (Val (count_tokens b))))
  | NaN => Raise AttributeError
  end.

(** The steps as they act on one labelled row *)
Definition host_step (lr : label * Row) : result (label * Row) :=
  do h <- urlparse_netloc (url (snd lr));
  Ok (fst lr, set_host (Val h) (snd lr)).

Definition title_step (lr : label * Row) : result (label * Row) :=
  if isna (title (snd lr)) then
    do word_list <- split_title (str_extract (url (snd lr)));
    Ok (fst lr, set_title (Val (Py.join " " word_list)) (snd lr))
  else Ok lr.

Definition uid_step (lr : label * Row) : result (label * Row) :=
  do hash_object <- url_hash (snd lr);
  Ok (Uid (MD5.hexdigest hash_object), snd lr).

Definition body_step (lr : label * Row) : result (label * Row) :=
  do letters <- letters_of (body (snd lr));
  Ok (fst lr, set_body (Val (Py.str (map replace_newline letters))) (snd lr)).

(** The count of a text cell, for the rows [dropna] keeps *)
Definition count_cell (text : cell string) : nat :=
  match text with
  | Val t => count_tokens t
  | NaN => 0%nat
  end.

(** The count a row receives: none when any of its values is missing *)
Definition tokens_cell (column_name : Row → cell string) (r : Row) : cell nat :=
  if Pandas.row_has_na r then NaN else Val (count_cell (column_name r)).

Definition title_count_step (lr : label * Row) : label * Row :=
  (fst lr, set_n_tokens_title (tokens_cell title (snd lr)) (snd lr)).

Definition body_count_step (lr : label * Row) : label * Row :=
  (fst lr, set_n_tokens_body (tokens_cell body (snd lr)) (snd lr)).

(** Stages 1 to 5 on one row, then stages 6 and 7 *)
Definition row_prefix (source_id : string) (lr : label * Row)
  : result (label * Row) :=
  do lr <- host_step (fst lr, set_newspaper_uid (Val source_id) (snd lr));
  do lr <- title_step lr;
  do lr <- uid_step lr;
  body_step lr.

Definition row_steps (source_id : string) (lr : label * Row)
  : result (label * Row) :=
  do lr <- row_prefix source_id lr;
  Ok (body_count_step (title_count_step lr)).

(** A row as [read_csv] delivers it: no count columns yet *)
Definition raw_shape (lr : label * Row) : Prop :=
  n_tokens_title (snd lr) = None ∧ n_tokens_body (snd lr) = None.

(** A row ready for tokenizing: nothing missing, no body count yet *)
Definition ready (lr : label * Row) : Prop :=
  Pandas.row_has_na (snd lr) = false ∧ n_tokens_body (snd lr) = None.

(** The stages that work row by row, in two groups *)
Definition stages_1_to_5 (source_id : string) (df : DataFrame)
  : result DataFrame :=
  do df <- _extract_host (_add_newspaper_uid_column df source_id);
  do df <- _fill_missing_titles df;
  do df <- _generate_uids_for_rows df;
  _remove_new_lines_from_body df.

Definition stages_6_to_7 (df : DataFrame) : result DataFrame :=
  do df <- _tokenize_title df;
  _tokenize_body df.

(** The nine stages in the order of the specification *)
Definition spec_stages (source_id : string)
  : list (DataFrame → result DataFrame) :=
  [ fun df => Ok (_add_newspaper_uid_column df source_id);
    _extract_host;
    _fill_missing_titles;
    _generate_uids_for_rows;
    _remove_new_lines_from_body;
    _tokenize_title;
    _tokenize_body;
    fun df => Ok (_remove_duplicate_entries df title);
    fun df => Ok (_drop_rows_with_missing_values df) ].

(** Sequential composition: each stage consumes the table of the one
    before, and the first exception ends the run. *)
Definition run_stages (stages : list (DataFrame → result DataFrame))
    (df : DataFrame) : result DataFrame :=
  fold_left (fun acc stage => bind acc stage) stages (Ok df).

End RowByRow.

(** The value a row has in a column *)
Definition key_of (col : Row → cell string) (lr : label * Row) : cell string :=
  col (snd lr).

(** A present value *)
Definition present {A : Type} (c : cell A) : Prop := ∃ a, c = Val a.

(** A column that exists and holds a present value *)
Definition column_present {A : Type} (c : option (cell A)) : Prop :=
  ∃ a, c = Some (Val a).

(** Thirty-two lowercase hexadecimal digits *)
Definition is_hex32 (s : string) : Prop :=
  String.length s = 32%nat
  ∧ Forall (fun c => Py.char_in c "0123456789abcdef" = true) (Py.chars s).

(** ** A reference environment

    Files are kept as the records or the table they hold.  The tokenizer
    is a small one for the sample batches, not [nltk]'s: it splits at
    white space, sets apart each of the characters
    [! ? ; @ # $ % & * ( ) [ ] { } < >], and a comma or colon that no
    digit follows, and keeps every other character in its word (so a
    hyphenated word is one token).  Periods, quotes, apostrophes and
    dashes are not treated as [nltk.word_tokenize] treats them.  The
    theorems hold for every tokenizer; this one serves the samples. *)

Module Reference.

Definition is_space (c : ascii) : bool :=
  (Py.ord c =? 32) || ((9 <=? Py.ord c) && (Py.ord c <=? 13)).

Definition is_digit (c : ascii) : bool :=
  (48 <=? Py.ord c) && (Py.ord c <=? 57).

Definition digit_follows (cs : list ascii) : bool :=
  match cs with
  | c :: _ => is_digit c
  | [] => false
  end.

(** Whether [c], followed by [cs], is a token of its own *)
Definition set_apart (c : ascii) (cs : list ascii) : bool :=
  Py.char_in c "!?;@#$%&*()[]{}<>"
  || (Py.char_in c ",:" && negb (digit_follows cs)).

Definition flush (word : list ascii) (tokens : list string) : list string :=
  match word with
  | [] => tokens
  | _ => Py.str (rev word) :: tokens
  end.

Fixpoint scan (word : list ascii) (tokens : list string) (cs : list ascii)
  : list string :=
  match cs with
  | [] => rev (flush word tokens)
  | c :: cs' =>
      if is_space c then scan [] (flush word tokens) cs'
      else if set_apart c cs' then scan [] (Py.str [c] :: flush word tokens) cs'
      else scan (c :: word) tokens cs'
  end.

Definition tokenize (text : string) : list string :=
  scan [] [] (Py.chars text).

Inductive file : Type :=
| Scraped (records : list RawRow)
| Cleaned (df : DataFrame).

Definition read (f : file) : result (list RawRow) :=
  match f with
  | Scraped records => Ok records
  | Cleaned df =>
      Ok (map (fun lr => mkRaw (url (snd lr)) (title (snd lr)) (body (snd lr))) df)
  end.

Definition env (stops : gset string) : External :=
  {| csv := file; read_csv := read; to_csv := Cleaned;
     word_tokenize := tokenize; stop_words := stops;
     check_bracketed_host := fun _ => true |}.

(** A directory holding one scraped file *)
Definition disk (stops : gset string) (filename : string)
    (records : list RawRow) : gmap string file :=
  {[ filename := Scraped records ]}.

(** What a run returns, without the file system *)
Definition returned {E : External} (m : result (DataFrame * gmap string (@csv E)))
  : result DataFrame :=
  do p <- m; Ok (fst p).

End Reference.


(** ** Sample batches *)

Module Demo.

Definition stops : gset string := {[ "the"%string ]}.

Definition E : External := Reference.env stops.

Definition filename : string := "n_2022.csv".

Definition two_lines : string :=
  String.append "Line1" (String Re.newline "Line2").

(** Two articles without title whose urls end in the same words, and one
    article whose url has no network location. *)
Definition records : list RawRow :=
  [ mkRaw (Val "https://n.test/a/hello-world") NaN (Val two_lines);
    mkRaw (Val "https://n.test/b/hello-world") NaN (Val "x");
    mkRaw (Val "no-host") (Val "The Title") (Val "x") ].

Definition fs : gmap string (@csv E) := Reference.disk stops filename records.

Definition out : DataFrame :=
  [ (Uid "6428f9316988e999f2360991a0867129",
     mkRow (Val "https://n.test/a/hello-world") (Val "hello world")
           (Val "Line1 Line2") (Some (Val "n")) (Some (Val "n.test"))
           (Some (Val 2%nat)) (Some (Val 0%nat)));
    (Uid "963d1f37ad49197c11ce3486781333de",
     mkRow (Val "no-host") (Val "The Title") (Val "x")
           (Some (Val "n")) (Some (Val EmptyString))
           (Some (Val 1%nat)) (Some (Val 1%nat))) ].

(** An article without title whose url ends in a slash *)
Definition trailing_slash : list RawRow :=
  [ mkRaw (Val "https://site.test/news/") NaN (Val "x") ].

(** The same article as a table at stage 3 *)
Definition trailing_slash_frame : DataFrame :=
  [ (RangeIndex 0,
     mkRow (Val "https://site.test/news/") NaN (Val "x")
           (Some (Val "n")) (Some (Val "site.test")) None None) ].

(** A table at stage 6 with distinct labels; the second row has no body. *)
Definition partial : DataFrame :=
  [ (Uid "a", mkRow (Val "u1") (Val "one two") (Val "b")
                (Some (Val "n")) (Some (Val "h")) None None);
    (Uid "b", mkRow (Val "u2") (Val "three") NaN
                (Some (Val "n")) (Some (Val "h")) None None) ].

Definition partial_counted : DataFrame :=
  [ (Uid "a", mkRow (Val "u1") (Val "one two") (Val "b")
                (Some (Val "n")) (Some (Val "h")) (Some (Val 2%nat)) None);
    (Uid "b", mkRow (Val "u2") (Val "three") NaN
                (Some (Val "n")) (Some (Val "h")) (Some NaN) None) ].

(** Four rows with the titles A, B, A, C *)
Definition titled (i : nat) (t : string) : label * Row :=
  (RangeIndex i, mkRow NaN (Val t) NaN None None None None).

Definition abac : DataFrame :=
  [ titled 0 "A"; titled 1 "B"; titled 2 "A"; titled 3 "C" ].

End Demo.

(** ** The configuration loader of the scraper

    [extract/common.py]: a module-level variable caches the parsed
    [config.yaml]; the parser and the truth value of a parsed document
    are parameters.  [None] is Python's [None]. *)

Module Config.

Section Loader.

Variable document : Type.

(** [yaml.safe_load] on the text of the file *)
Variable safe_load : string → result (option document).

(** [bool(document)] *)
Variable truthy : document → bool.

(** [not __config] *)
Definition not_set (cached : option document) : bool :=
  match cached with
  | None => true
  | Some d => negb (truthy d)
  end.

(** [config()]: what the call returns or raises, and the module variable
    after the call.  The variable is assigned only after the file has been
    opened and parsed. *)
Definition config (cached : option document) (files : gmap string string)
  : result (option document) * option document :=
  if not_set cached then
    match files !! "config.yaml"%string with
    | None => (Raise FileNotFoundError, cached)
    | Some text =>
        match safe_load text with
        | Ok loaded => (Ok loaded, loaded)
        | Raise e => (Raise e, cached)
        end
    end
  else (Ok cached, cached).

End Loader.

(** A sample parser: the text itself is the document, the empty text
    parses to [None], and the text [{}] is an empty mapping. *)
Definition sample_load (text : string) : result (option string) :=
  match text with
  | EmptyString => Ok None
  | _ => Ok (Some text)
  end.

Definition sample_truthy (d : string) : bool :=
  negb (String.eqb d "{}").

Definition sample_files (text : string) : gmap string string :=
  {[ "config.yaml"%string := text ]}.

End Config.

(** ** More sample batches *)

Module Demo2.

(** A table at stage 6 in which two complete rows share a label *)
Definition repeated_label : DataFrame :=
  [ (Uid "a", mkRow (Val "u1") (Val "one") (Val "b")
                (Some (Val "n")) (Some (Val "h")) None None);
    (Uid "a", mkRow (Val "u1") (Val "two") (Val "b")
                (Some (Val "n")) (Some (Val "h")) None None);
    (Uid "c", mkRow (Val "u3") (Val "three") NaN
                (Some (Val "n")) (Some (Val "h")) None None) ].

(** A table in which every row has a missing value *)
Definition all_incomplete : DataFrame :=
  [ (Uid "c", mkRow (Val "u3") (Val "three") NaN
                (Some (Val "n")) (Some (Val "h")) None None) ].

(** The sample table of stage 6 after both counts *)
Definition partial_counted_twice : DataFrame :=
  [ (Uid "a", mkRow (Val "u1") (Val "one two") (Val "b")
                (Some (Val "n")) (Some (Val "h"))
                (Some (Val 2%nat)) (Some (Val 1%nat)));
    (Uid "b", mkRow (Val "u2") (Val "three") NaN
                (Some (Val "n")) (Some (Val "h")) (Some NaN) (Some NaN)) ].

(** Records of which the second has no url *)
Definition missing_url : list RawRow :=
  [ mkRaw (Val "https://n.test/a/one") (Val "One") (Val "x");
    mkRaw NaN (Val "Two") (Val "y") ].

(** A table at stage 3 with one row without title and one with *)
Definition untitled : DataFrame :=
  [ (RangeIndex 0,
     mkRow (Val "https://n.test/a/hello-world") NaN (Val "x")
           (Some (Val "n")) (Some (Val "n.test")) None None);
    (RangeIndex 1,
     mkRow (Val "https://n.test/b/") (Val "Kept") (Val "y")
           (Some (Val "n")) (Some (Val "n.test")) None None) ].

Definition untitled_repaired : DataFrame :=
  [ (RangeIndex 0,
     mkRow (Val "https://n.test/a/hello-world") (Val "hello world") (Val "x")
           (Some (Val "n")) (Some (Val "n.test")) None None);
    (RangeIndex 1,
     mkRow (Val "https://n.test/b/") (Val "Kept") (Val "y")
           (Some (Val "n")) (Some (Val "n.test")) None None) ].

(** The same table with its uids and with the new lines removed *)
Definition with_uids : DataFrame :=
  [ (Uid "6428f9316988e999f2360991a0867129",
     mkRow (Val "https://n.test/a/hello-world") NaN (Val "x")
           (Some (Val "n")) (Some (Val "n.test")) None None);
    (Uid "1730d7c915106ec4337e1878b1067f6e",
     mkRow (Val "https://n.test/b/") (Val "Kept") (Val "y")
           (Some (Val "n")) (Some (Val "n.test")) None None) ].

(** The sample batch of [Demo.records] after stage 2 *)
Definition hosted : DataFrame :=
  [ (RangeIndex 0,
     mkRow (Val "https://n.test/a/hello-world") NaN (Val Demo.two_lines)
           (Some (Val "n")) (Some (Val "n.test")) None None);
    (RangeIndex 1,
     mkRow (Val "https://n.test/b/hello-world") NaN (Val "x")
           (Some (Val "n")) (Some (Val "n.test")) None None);
    (RangeIndex 2,
     mkRow (Val "no-host") (Val "The Title") (Val "x")
           (Some (Val "n")) (Some (Val EmptyString)) None None) ].


(** A complete row with the title [t] *)
Definition entitled (t : string) : label * Row :=
  (Uid "a", mkRow (Val "u") (Val t) (Val "b")
              (Some (Val "n")) (Some (Val "h")) None None).

End Demo2.
(** ** The error monad *)

Lemma bind_Ok {A B : Type} (m : result A) (k : A → result B) (b : B) :
  bind m k = Ok b ↔ ∃ a, m = Ok a ∧ k a = Ok b.
Proof.
  destruct m as [a|e]; simpl; split.
  - intros Hk. by exists a.
  - by intros (a' & [= ->] & Hk).
  - discriminate.
  - by intros (a' & ? & _).
Qed.

Ltac inv_bind H :=
  repeat match type of H with
         | bind _ _ = Ok _ =>
             let a := fresh "x" in
             let Ha := fresh "Hx" in
             apply bind_Ok in H as (a & Ha & H)
         end.

Lemma mapM_pure {A B : Type} (f : A → B) (xs : list A) :
  mapM (fun x => Ok (f x)) xs = Ok (map f xs).
Proof. induction xs as [|x xs IH]; simpl; [done|]. by rewrite IH. Qed.

Lemma mapM_ext {A B : Type} (f g : A → result B) (xs : list A) :
  (∀ x, x ∈ xs → f x = g x) → mapM f xs = mapM g xs.
Proof.
  induction xs as [|x xs IH]; intros Hfg; simpl; [done|].
  rewrite Hfg; [|left]. rewrite IH; [done|].
  intros y Hy. apply Hfg. by right.
Qed.

Lemma mapM_map {A B C : Type} (f : B → result C) (g : A → B) (xs : list A) :
  mapM f (map g xs) = mapM (fun x => f (g x)) xs.
Proof. induction xs as [|x xs IH]; simpl; [done|]. by rewrite IH. Qed.

Lemma mapM_imap {A B C : Type} (f : B → result C) (g : nat → A → B)
    (h : A → result C) (xs : list A) :
  (∀ i x, f (g i x) = h x) → mapM f (imap g xs) = mapM h xs.
Proof.
  revert g. induction xs as [|x xs IH]; intros g Hg; simpl; [done|].
  rewrite Hg. rewrite IH; [done|]. intros i y. apply Hg.
Qed.

Lemma mapM_length {A B : Type} (f : A → result B) (xs : list A) (ys : list B) :
  mapM f xs = Ok ys → length ys = length xs.
Proof.
  revert ys. induction xs as [|x xs IH]; intros ys Hys; simpl in *.
  - by injection Hys as <-.
  - inv_bind Hys. injection Hys as <-. simpl. f_equal. by apply IH.
Qed.

Lemma mapM_Forall2 {A B : Type} (f : A → result B) (xs : list A) (ys : list B) :
  mapM f xs = Ok ys ↔ Forall2 (fun x y => f x = Ok y) xs ys.
Proof.
  revert ys. induction xs as [|x xs IH]; intros ys; simpl; split.
  - intros [= <-]. constructor.
  - intros Hys. by inversion Hys.
  - intros Hys. inv_bind Hys. injection Hys as <-. constructor; [done|].
    by apply IH.
  - intros Hys. inversion Hys as [|? y ? ys' Hy Hys']; subst.
    rewrite Hy. simpl. apply IH in Hys'. by rewrite Hys'.
Qed.

(** Storing the results of a loop in the rows is a loop over the rows. *)
Lemma mapM_zip_with {A B C : Type} (f : A → result B) (g : A → B → C)
    (xs : list A) :
  bind (mapM f xs) (fun ys => Ok (zip_with g xs ys))
  = mapM (fun x => bind (f x) (fun y => Ok (g x y))) xs.
Proof.
  induction xs as [|x xs IH]; simpl; [done|].
  destruct (f x) as [y|e]; simpl; [|done].
  rewrite <- IH. by destruct (mapM f xs).
Qed.

(** Two loops in a row succeed exactly when the fused loop does. *)
Lemma mapM_fuse_Ok {A B C : Type} (f : A → result B) (g : B → result C)
    (xs : list A) (zs : list C) :
  bind (mapM f xs) (mapM g) = Ok zs
  ↔ mapM (fun x => bind (f x) g) xs = Ok zs.
Proof.
  revert zs. induction xs as [|x xs IH]; intros zs; simpl; [done|].
  destruct (f x) as [y|e]; simpl.
  - destruct (mapM f xs) as [ys|e] eqn:Hys; simpl.
    + specialize (IH). simpl in IH.
      destruct (g y) as [z|e]; simpl; [|done].
      destruct (mapM g ys) as [zs'|e] eqn:Hzs; simpl.
      * destruct (IH zs') as [IH1 _]. rewrite (IH1 eq_refl). done.
      * split; [done|]. intros Hz. inv_bind Hz.
        apply IH in Hx. discriminate.
    + split; [done|]. intros Hz. inv_bind Hz. inv_bind Hz.
      apply IH in Hx0. discriminate.
  - split; [done|]. intros Hz. inv_bind Hz. discriminate.
Qed.

Lemma mapM_Forall {A B : Type} (P : A → Prop) (Q : B → Prop)
    (f : A → result B) (xs : list A) (ys : list B) :
  (∀ x y, P x → f x = Ok y → Q y) →
  Forall P xs → mapM f xs = Ok ys → Forall Q ys.
Proof.
  intros HPQ HP Hys. apply mapM_Forall2 in Hys.
  induction Hys as [|x y xs ys Hy Hys IH]; [constructor|].
  inversion HP; subst. constructor; eauto.
Qed.

(** ** The steps, one row at a time *)

Section Steps.

Context `{External}.

Lemma extract_host_rows (df : DataFrame) :
  _extract_host df = mapM host_step df.
Proof.
  unfold _extract_host, Pandas.set_column.
  transitivity
    (bind (mapM (fun lr : label * Row => urlparse_netloc (url (snd lr))) df)
       (fun hosts => Ok (zip_with
          (fun lr h => (fst lr, set_host (Val h) (snd lr))) df hosts))).
  - destruct (mapM _ df) as [hosts|e]; simpl; [|done].
    by rewrite zip_with_fmap_r.
  - by rewrite mapM_zip_with.
Qed.

Lemma str_accessor_urls (column selected : list (cell string)) :
  Forall present column → str_accessor column selected = Ok selected.
Proof.
  intros Hcol. destruct column as [|c column]; simpl; [done|].
  inversion Hcol as [|? ? [u ->] _]; subst. done.
Qed.

Lemma fill_missing_titles_loop (df : DataFrame) :
  bind (mapM split_title
          (map str_extract
             (map (fun lr => url (snd lr))
                (List.filter (fun lr : label * Row => isna (title (snd lr))) df))))
       (fun word_lists => Ok (loc_set_title df (map (Py.join " ") word_lists)))
  = mapM title_step df.
Proof.
  induction df as [|[l r] df IH]; simpl; [done|].
  unfold title_step at 1. simpl.
  destruct (isna (title r)) eqn:Hna; simpl.
  - destruct (split_title (str_extract (url r))) as [ws|e]; simpl; [|done].
    rewrite <- IH.
    by destruct (mapM split_title _) as [wss|e].
  - rewrite <- IH.
    by destruct (mapM split_title _) as [wss|e].
Qed.

Lemma fill_missing_titles_rows (df : DataFrame) :
  Forall (fun lr => present (url (snd lr))) df →
  _fill_missing_titles df = mapM title_step df.
Proof.
  intros Hurl. unfold _fill_missing_titles.
  rewrite str_accessor_urls; [|by apply Forall_fmap].
  simpl. apply fill_missing_titles_loop.
Qed.

Lemma apply_rows_cons {A : Type} (f : Row → result A) (df : DataFrame) :
  df ≠ [] →
  apply_rows f df
  = bind (mapM (fun lr => bind (f (snd lr)) (fun v => Ok (fst lr, v))) df)
         (fun s => Ok (AppliedSeries s)).
Proof. by destruct df. Qed.

Lemma set_index_uids (df : DataFrame) (s : Series MD5.hash) :
  length s = length df →
  Pandas.set_index df (map Uid (values (apply MD5.hexdigest s)))
  = zip_with (fun lr (lv : label * MD5.hash) => (Uid (MD5.hexdigest (snd lv)), snd lr)) df s.
Proof.
  intros _. unfold Pandas.set_index, values, apply.
  rewrite !map_map. simpl. by rewrite zip_with_fmap_r.
Qed.

Lemma generate_uids_rows (df : DataFrame) :
  df ≠ [] → _generate_uids_for_rows df = mapM uid_step df.
Proof.
  intros Hne. unfold _generate_uids_for_rows.
  rewrite apply_rows_cons by done.
  transitivity
    (bind (mapM (fun lr => bind (url_hash (snd lr)) (fun v => Ok (fst lr, v))) df)
       (fun s => Ok (zip_with
          (fun lr (lv : label * MD5.hash) => (Uid (MD5.hexdigest (snd lv)), snd lr)) df s))).
  - destruct (mapM _ df) as [s|e] eqn:Hs; simpl; [|done].
    f_equal. apply set_index_uids. by apply mapM_length in Hs.
  - rewrite mapM_zip_with. apply mapM_ext. intros [l r] _. simpl.
    unfold uid_step. simpl. by destruct (url_hash r).
Qed.

Lemma generate_uids_empty : _generate_uids_for_rows [] = Raise ValueError.
Proof. reflexivity. Qed.

Lemma apply_rows_total {A : Type} (f : Row → A) (df : DataFrame) :
  apply_rows (fun row => Ok (f row)) df
  = Ok (AppliedSeries (map (fun lr => (fst lr, f (snd lr))) df)).
Proof.
  destruct (decide (df = [])) as [->|Hne]; [done|].
  rewrite apply_rows_cons by done.
  rewrite (mapM_ext _ (fun lr => Ok (fst lr, f (snd lr)))) by done.
  by rewrite mapM_pure.
Qed.

Lemma remove_new_lines_rows (df : DataFrame) :
  _remove_new_lines_from_body df = mapM body_step df.
Proof.
  unfold _remove_new_lines_from_body. rewrite apply_rows_total. simpl.
  unfold apply_values. rewrite mapM_map. simpl.
  transitivity
    (bind (mapM (fun lr => bind (letters_of (body (snd lr))) (fun v => Ok (fst lr, v))) df)
       (fun s => Ok (zip_with
          (fun lr (lv : label * list ascii) =>
             (fst lr, set_body (Val (Py.str (map replace_newline (snd lv)))) (snd lr)))
          df s))).
  - destruct (mapM _ df) as [s|e]; simpl; [|done].
    f_equal. unfold Pandas.set_column, values, apply.
    rewrite !map_map. simpl. by rewrite zip_with_fmap_r.
  - rewrite mapM_zip_with. apply mapM_ext. intros [l r] _. simpl.
    unfold body_step. simpl. by destruct (letters_of (body r)).
Qed.

(** *** Tokenizing *)

Lemma dropna_In (df : DataFrame) (lr : label * Row) :
  lr ∈ Pandas.dropna df ↔ lr ∈ df ∧ Pandas.row_has_na (snd lr) = false.
Proof.
  unfold Pandas.dropna. rewrite !list_elem_of_In, filter_In.
  by rewrite negb_true_iff.
Qed.

Lemma dropna_complete (df : DataFrame) :
  Forall (fun lr => Pandas.row_has_na (snd lr) = false) df →
  Pandas.dropna df = df.
Proof.
  induction 1 as [|lr df Hlr _ IH]; simpl; [done|].
  rewrite Hlr. simpl. by rewrite IH.
Qed.

Lemma filter_same_length {A : Type} (p : A → bool) (l : list A) :
  length (List.filter p l) = length l → List.filter p l = l.
Proof.
  induction l as [|a l IH]; simpl; [done|].
  pose proof (filter_length_le p l) as Hle.
  destruct (p a); simpl; intros Hlen.
  - f_equal. apply IH. lia.
  - lia.
Qed.

Lemma dropna_same_index (df : DataFrame) :
  Pandas.index (Pandas.dropna df) = Pandas.index df → Pandas.dropna df = df.
Proof.
  intros Hix. apply filter_same_length.
  apply (f_equal (@length label)) in Hix.
  unfold Pandas.index in Hix. by rewrite !length_map in Hix.
Qed.

Lemma dropna_index_sublist (df : DataFrame) :
  sublist (Pandas.index (Pandas.dropna df)) (Pandas.index df).
Proof.
  induction df as [|lr df IH]; simpl; [done|].
  destruct (negb _); simpl; by constructor.
Qed.

Lemma row_has_na_title (r : Row) :
  Pandas.row_has_na r = false → present (title r).
Proof.
  unfold Pandas.row_has_na. destruct (title r) as [|t]; simpl.
  - rewrite orb_true_r. simpl. discriminate.
  - by exists t.
Qed.

Lemma row_has_na_body (r : Row) :
  Pandas.row_has_na r = false → present (body r).
Proof.
  unfold Pandas.row_has_na. destruct (body r) as [|t]; simpl.
  - rewrite orb_true_r. simpl. discriminate.
  - by exists t.
Qed.

(** The Series of counts holds one count for each row that [dropna] keeps. *)
Lemma tokenize_column_Ok (df : DataFrame) (column_name : Row → cell string) :
  (∀ r, Pandas.row_has_na r = false → present (column_name r)) →
  Pandas.dropna df ≠ [] →
  _tokenize_column df column_name
  = Ok (map (fun lr => (fst lr, count_cell (column_name (snd lr)))) (Pandas.dropna df)).
Proof.
  intros Hcol Hne. unfold _tokenize_column.
  rewrite apply_rows_cons by done.
  rewrite (mapM_ext _
    (fun lr => Ok (fst lr,
       match column_name (snd lr) with
       | Val t => word_tokenize t
       | NaN => []
       end))).
  - rewrite mapM_pure. simpl. f_equal. unfold apply. rewrite !map_map.
    apply map_ext_in. intros [l r] Hin. simpl.
    apply list_elem_of_In, dropna_In in Hin as [_ Hna]. simpl in Hna.
    by destruct (Hcol r Hna) as [t ->].
  - intros [l r] Hin. simpl. apply dropna_In in Hin as [_ Hna].
    by destruct (Hcol r Hna) as [t ->].
Qed.

Lemma tokenize_column_none (df : DataFrame) (column_name : Row → cell string) :
  column_name probe_row = NaN →
  Pandas.dropna df = [] →
  _tokenize_column df column_name = Raise ValueError.
Proof. intros Hprobe Hdrop. unfold _tokenize_column. by rewrite Hdrop; simpl; rewrite Hprobe. Qed.

Lemma at_label_absent {A : Type} (l : label) (s : Series A) :
  l ∉ Pandas.index s → Pandas.at_label l s = NaN.
Proof.
  induction s as [|[l' v] s IH]; simpl; [done|].
  intros Hl. apply not_elem_of_cons in Hl as [Hne Hl].
  destruct (decide (l = l')); [done|]. by apply IH.
Qed.

Lemma at_label_dropna {A : Type} (g : label * Row → A) (df : DataFrame)
    (lr : label * Row) :
  NoDup (Pandas.index df) → lr ∈ df →
  Pandas.at_label (fst lr) (map (fun x => (fst x, g x)) (Pandas.dropna df))
  = if Pandas.row_has_na (snd lr) then NaN else Val (g lr).
Proof.
  induction df as [|a df IH]; simpl; intros Hnd Hin.
  - by apply elem_of_nil in Hin.
  - apply NoDup_cons in Hnd as [Ha Hnd].
    assert (Hrest : fst a ∉ Pandas.index
                      (map (fun x => (fst x, g x)) (Pandas.dropna df))).
    { intros Hin'. apply Ha. unfold Pandas.index in *.
      rewrite map_map in Hin'. simpl in Hin'.
      eapply elem_of_sublist; [done|apply dropna_index_sublist]. }
    apply elem_of_cons in Hin as [->|Hin].
    + destruct (Pandas.row_has_na (snd a)); simpl.
      * by apply at_label_absent.
      * by destruct (decide (fst a = fst a)).
    + assert (fst lr ≠ fst a).
      { intros Heq. apply Ha. rewrite <- Heq.
        unfold Pandas.index. apply list_elem_of_fmap. by exists lr. }
      destruct (Pandas.row_has_na (snd a)); simpl.
      * by apply IH.
      * destruct (decide (fst lr = fst a)); [done|]. by apply IH.
Qed.

Lemma reindex_complete {A : Type} (g : label * Row → A) (df : DataFrame) :
  Pandas.dropna df = df →
  Pandas.reindex_for_setitem (map (fun x => (fst x, g x)) (Pandas.dropna df)) df
  = Ok (map (fun lr => Val (g lr)) df).
Proof.
  intros ->. unfold Pandas.reindex_for_setitem, Pandas.index.
  rewrite !map_map. simpl.
  by destruct (decide (map fst df = map fst df)).
Qed.

Lemma reindex_dropna {A : Type} (g : label * Row → A) (df : DataFrame) :
  NoDup (Pandas.index df) →
  Pandas.reindex_for_setitem (map (fun x => (fst x, g x)) (Pandas.dropna df)) df
  = Ok (map (fun lr => if Pandas.row_has_na (snd lr) then NaN else Val (g lr)) df).
Proof.
  intros Hnd. unfold Pandas.reindex_for_setitem.
  destruct (decide _) as [Hix|Hix].
  - unfold Pandas.index in Hix. rewrite map_map in Hix. simpl in Hix.
    apply dropna_same_index in Hix. rewrite Hix. rewrite map_map. simpl.
    f_equal. apply map_ext_in. intros lr Hin.
    assert (Hlr : lr ∈ Pandas.dropna df) by (rewrite Hix; by apply list_elem_of_In).
    apply dropna_In in Hlr as [_ ->]. done.
  - destruct (decide (NoDup _)) as [_|Hdup].
    + f_equal. unfold Pandas.index. rewrite map_map.
      apply map_ext_in. intros lr Hin. apply at_label_dropna; [done|].
      by apply list_elem_of_In.
    + exfalso. apply Hdup. unfold Pandas.index. rewrite map_map. simpl.
      eapply sublist_NoDup; [done|apply dropna_index_sublist].
Qed.

Lemma set_column_map {V : Type} (set : V → Row → Row) (h : label * Row → V)
    (df : DataFrame) :
  Pandas.set_column set df (map h df)
  = map (fun lr => (fst lr, set (h lr) (snd lr))) df.
Proof.
  unfold Pandas.set_column. induction df as [|lr df IH]; simpl; [done|].
  by rewrite IH.
Qed.

(** Both tokenizing stages: count, align on the index, store. *)
Lemma tokenize_store (set : cell nat → Row → Row)
    (column_name : Row → cell string) (df : DataFrame) :
  (∀ r, Pandas.row_has_na r = false → present (column_name r)) →
  NoDup (Pandas.index df) ∨ Pandas.dropna df = df →
  Pandas.dropna df ≠ [] →
  bind (_tokenize_column df column_name) (fun counts =>
    bind (Pandas.reindex_for_setitem counts df) (fun column =>
      Ok (Pandas.set_column set df column)))
  = Ok (map (fun lr => (fst lr, set (tokens_cell column_name (snd lr)) (snd lr))) df).
Proof.
  intros Hcol Hix Hne. rewrite tokenize_column_Ok by done. simpl.
  destruct Hix as [Hnd|Hall].
  - rewrite (reindex_dropna (fun x => count_cell (column_name (snd x)))) by done.
    simpl. f_equal. by rewrite set_column_map.
  - rewrite (reindex_complete (fun x => count_cell (column_name (snd x)))) by done.
    simpl. f_equal. rewrite set_column_map. apply map_ext_in.
    intros lr Hin. unfold tokens_cell.
    assert (Hlr : lr ∈ Pandas.dropna df) by (rewrite Hall; by apply list_elem_of_In).
    apply dropna_In in Hlr as [_ ->]. done.
Qed.

End Steps.

(** ** The pipeline, one row at a time *)

Section Pipeline.

Context `{External}.

Lemma bind_assoc {A B C : Type} (m : result A) (f : A → result B)
    (g : B → result C) :
  bind (bind m f) g = bind m (fun a => bind (f a) g).
Proof. by destruct m. Qed.

Lemma mapM_bind_pure {A B C : Type} (f : A → result B) (g : B → C)
    (xs : list A) :
  mapM (fun x => bind (f x) (fun y => Ok (g y))) xs
  = bind (mapM f xs) (fun ys => Ok (map g ys)).
Proof.
  induction xs as [|x xs IH]; simpl; [done|].
  destruct (f x) as [y|e]; simpl; [|done].
  rewrite IH. by destruct (mapM f xs).
Qed.

Lemma mapM_nonempty {A B : Type} (f : A → result B) (xs : list A) (ys : list B) :
  mapM f xs = Ok ys → (ys ≠ [] ↔ xs ≠ []).
Proof.
  intros Hys. apply mapM_length in Hys.
  destruct xs, ys; simpl in *; try discriminate; done.
Qed.

Lemma host_step_url (lr lr' : label * Row) :
  host_step lr = Ok lr' → present (url (snd lr')).
Proof.
  unfold host_step, urlparse_netloc. destruct lr as [l r]. simpl.
  destruct (url r) as [|u] eqn:Hu; simpl; [discriminate|].
  intros Hb. inv_bind Hb. injection Hb as <-. simpl. rewrite Hu. by exists u.
Qed.

(** A row that passes stages 1 to 5 has no missing value. *)
Lemma row_prefix_ready (source_id : string) (lr lr' : label * Row) :
  raw_shape lr → row_prefix source_id lr = Ok lr' → ready lr'.
Proof.
  destruct lr as [l [u t b nu h nt nb]]. unfold raw_shape. simpl.
  intros [-> ->] Hb. unfold row_prefix in Hb. inv_bind Hb.
  unfold host_step, urlparse_netloc in Hx. simpl in Hx.
  destruct u as [|u]; simpl in Hx; [discriminate|].
  inv_bind Hx. injection Hx as <-.
  unfold title_step in Hx0. simpl in Hx0.
  unfold uid_step, url_hash in Hx1. unfold body_step in Hb.
  destruct t as [|t]; simpl in Hx0.
  - inv_bind Hx0. injection Hx0 as <-. simpl in *.
    injection Hx1 as <-. simpl in Hb.
    destruct b as [|b]; simpl in Hb; [discriminate|].
    injection Hb as <-. done.
  - injection Hx0 as <-. simpl in *.
    injection Hx1 as <-. simpl in Hb.
    destruct b as [|b]; simpl in Hb; [discriminate|].
    injection Hb as <-. done.
Qed.

Lemma title_count_step_ready (lr : label * Row) :
  ready lr → Pandas.row_has_na (snd (title_count_step lr)) = false.
Proof.
  intros [Hna Hnb]. unfold title_count_step, tokens_cell. rewrite Hna.
  destruct lr as [l [u t b nu h nt nb]]. simpl in *. subst nb.
  unfold Pandas.row_has_na in *. simpl in *.
  repeat (apply orb_false_elim in Hna as [Hna ?]).
  repeat (apply orb_false_intro); done.
Qed.

Lemma body_count_step_complete (lr : label * Row) :
  Pandas.row_has_na (snd lr) = false →
  Pandas.row_has_na (snd (body_count_step lr)) = false.
Proof.
  intros Hna. unfold body_count_step, tokens_cell. rewrite Hna.
  destruct lr as [l [u t b nu h nt nb]]. simpl in *.
  unfold Pandas.row_has_na in *. simpl in *.
  repeat (apply orb_false_elim in Hna as [Hna ?]).
  repeat (apply orb_false_intro); done.
Qed.

Lemma prefix_Ok (source_id : string) (df0 df5 : DataFrame) :
  stages_1_to_5 source_id df0 = Ok df5
  ↔ df0 ≠ [] ∧ mapM (row_prefix source_id) df0 = Ok df5.
Proof.
  unfold stages_1_to_5. split.
  - intros Hb. inv_bind Hb.
    rewrite extract_host_rows in Hx.
    assert (Hurl : Forall (fun lr => present (url (snd lr))) x).
    { eapply (mapM_Forall (fun _ => True)); [|by apply Forall_true|exact Hx].
      intros lr lr' _. apply host_step_url. }
    rewrite fill_missing_titles_rows in Hx0 by done.
    destruct (decide (x0 = [])) as [->|Hne]; [discriminate|].
    rewrite generate_uids_rows in Hx1 by done.
    rewrite remove_new_lines_rows in Hb.
    split.
    + apply (mapM_nonempty _ _ _ Hx0) in Hne.
      apply (mapM_nonempty _ _ _ Hx) in Hne.
      intros ->. by apply Hne.
    + assert (H45 : mapM (fun lr => bind (uid_step lr) body_step) x0 = Ok df5).
      { apply mapM_fuse_Ok. by rewrite Hx1. }
      assert (H35 : mapM (fun lr => bind (title_step lr)
                      (fun lr => bind (uid_step lr) body_step)) x = Ok df5).
      { apply mapM_fuse_Ok. by rewrite Hx0. }
      assert (H25 : mapM (fun lr => bind (host_step lr)
                      (fun lr => bind (title_step lr)
                         (fun lr => bind (uid_step lr) body_step)))
                      (_add_newspaper_uid_column df0 source_id) = Ok df5).
      { apply mapM_fuse_Ok. by rewrite Hx. }
      unfold _add_newspaper_uid_column in H25. rewrite mapM_map in H25.
      exact H25.
  - intros [Hne H25].
    assert (H25' : mapM (fun lr => bind (host_step lr)
                      (fun lr => bind (title_step lr)
                         (fun lr => bind (uid_step lr) body_step)))
                      (_add_newspaper_uid_column df0 source_id) = Ok df5).
    { unfold _add_newspaper_uid_column. rewrite mapM_map. exact H25. }
    apply mapM_fuse_Ok in H25'. inv_bind H25'.
    apply mapM_fuse_Ok in H25'. inv_bind H25'.
    apply mapM_fuse_Ok in H25'. inv_bind H25'.
    rewrite extract_host_rows, Hx. simpl.
    assert (Hurl : Forall (fun lr => present (url (snd lr))) x).
    { eapply (mapM_Forall (fun _ => True)); [|by apply Forall_true|exact Hx].
      intros lr lr' _. apply host_step_url. }
    rewrite fill_missing_titles_rows, Hx0 by done. simpl.
    assert (x0 ≠ []).
    { apply (mapM_nonempty _ _ _ Hx0). apply (mapM_nonempty _ _ _ Hx).
      unfold _add_newspaper_uid_column. by destruct df0. }
    rewrite generate_uids_rows, Hx1 by done. simpl.
    by rewrite remove_new_lines_rows.
Qed.

Lemma tokenize_title_complete (df : DataFrame) :
  Forall (fun lr => Pandas.row_has_na (snd lr) = false) df → df ≠ [] →
  _tokenize_title df = Ok (map title_count_step df).
Proof.
  intros Hall Hne. apply dropna_complete in Hall.
  unfold _tokenize_title. apply tokenize_store.
  - apply row_has_na_title.
  - by right.
  - by rewrite Hall.
Qed.

Lemma tokenize_body_complete (df : DataFrame) :
  Forall (fun lr => Pandas.row_has_na (snd lr) = false) df → df ≠ [] →
  _tokenize_body df = Ok (map body_count_step df).
Proof.
  intros Hall Hne. apply dropna_complete in Hall.
  unfold _tokenize_body. apply tokenize_store.
  - apply row_has_na_body.
  - by right.
  - by rewrite Hall.
Qed.

Lemma suffix_Ok (df5 : DataFrame) :
  Forall ready df5 → df5 ≠ [] →
  stages_6_to_7 df5
  = Ok (map (fun lr => body_count_step (title_count_step lr)) df5).
Proof.
  intros Hready Hne. unfold stages_6_to_7.
  rewrite tokenize_title_complete; [|by eapply Forall_impl; [done|intros lr [? _]]|done].
  simpl. rewrite tokenize_body_complete.
  - by rewrite map_map.
  - apply Forall_fmap. eapply Forall_impl; [done|].
    intros lr Hlr. by apply title_count_step_ready.
  - by destruct df5.
Qed.

Lemma stages_Ok (source_id : string) (df0 df7 : DataFrame) :
  Forall raw_shape df0 →
  bind (stages_1_to_5 source_id df0) stages_6_to_7 = Ok df7
  ↔ df0 ≠ [] ∧ mapM (row_steps source_id) df0 = Ok df7.
Proof.
  intros Hraw. unfold row_steps. rewrite mapM_bind_pure. split.
  - intros Hb. inv_bind Hb. apply prefix_Ok in Hx as [Hne Hx].
    split; [done|]. rewrite Hx. simpl.
    rewrite suffix_Ok in Hb.
    + by injection Hb as <-.
    + eapply mapM_Forall; [|exact Hraw|exact Hx].
      intros lr lr'. apply row_prefix_ready.
    + by apply (mapM_nonempty _ _ _ Hx).
  - intros [Hne Hb]. inv_bind Hb. injection Hb as <-.
    assert (Hpre : stages_1_to_5 source_id df0 = Ok x) by by apply prefix_Ok.
    rewrite Hpre. simpl. apply suffix_Ok.
    + eapply mapM_Forall; [|exact Hraw|exact Hx].
      intros lr lr'. apply row_prefix_ready.
    + by apply (mapM_nonempty _ _ _ Hx).
Qed.

Lemma row_steps_record (source_id : string) (l : label) (r : RawRow) :
  row_steps source_id
    (l, mkRow (raw_url r) (raw_title r) (raw_body r) None None None None)
  = clean_record source_id r.
Proof.
  destruct r as [u t b].
  unfold row_steps, row_prefix, clean_record, host_step, repaired_title.
  simpl. destruct u as [|u]; simpl; [done|].
  destruct (Urllib.netloc check_bracketed_host u) as [h|e]; simpl; [|done].
  unfold title_step, fallback_title. simpl.
  destruct t as [|t]; simpl.
  - destruct (Re.search (Py.chars u)) as [m|]; simpl; [|done].
    unfold body_step. simpl. by destruct b as [|b].
  - unfold body_step. simpl. by destruct b as [|b].
Qed.

Lemma Forall_imap_all {A B : Type} (P : B → Prop) (f : nat → A → B)
    (xs : list A) :
  (∀ i x, P (f i x)) → Forall P (imap f xs).
Proof.
  revert f. induction xs as [|x xs IH]; intros f Hf; simpl.
  - constructor.
  - constructor; [apply Hf|]. apply IH. intros i y. apply Hf.
Qed.

Lemma frame_of_records_raw (records : list RawRow) :
  Forall raw_shape (frame_of_records records).
Proof. apply Forall_imap_all. by intros i r. Qed.

Lemma frame_of_records_nil (records : list RawRow) :
  frame_of_records records = [] ↔ records = [].
Proof. by destruct records. Qed.

Lemma frame_of_records_steps (source_id : string) (records : list RawRow) :
  mapM (row_steps source_id) (frame_of_records records)
  = mapM (clean_record source_id) records.
Proof. apply mapM_imap. intros i r. apply row_steps_record. Qed.

(** The shape of a cleaned row *)
Lemma clean_record_Ok (source_id : string) (r : RawRow) (l : label) (row : Row) :
  clean_record source_id r = Ok (l, row) →
  ∃ u t b h,
    raw_url r = Val u ∧ Urllib.netloc check_bracketed_host u = Ok h
    ∧ repaired_title r = Ok t ∧ raw_body r = Val b
    ∧ l = Uid (assign_id u)
    ∧ row = mkRow (Val u) (Val t) (Val (normalize_body b))
              (Some (Val source_id)) (Some (Val h))
              (Some (Val (count_tokens t)))
              (Some (Val (count_tokens (normalize_body b)))).
Proof.
  unfold clean_record. intros Hb. inv_bind Hb.
  destruct (raw_url r) as [|u] eqn:Hu; [discriminate|].
  destruct (raw_body r) as [|b] eqn:Hbody; [discriminate|].
  simpl in *. injection Hx1 as <-. injection Hb as <- <-.
  by exists u, x0, b, x.
Qed.

Lemma clean_record_complete (source_id : string) (r : RawRow) (lr : label * Row) :
  clean_record source_id r = Ok lr → Pandas.row_has_na (snd lr) = false.
Proof.
  destruct lr as [l row]. intros Hc.
  apply clean_record_Ok in Hc as (u & t & b & h & _ & _ & _ & _ & _ & ->).
  done.
Qed.

Lemma main_unfold (filename : string) (fs : filesystem) :
  main filename fs
  = bind (_read_data filename fs) (fun df0 =>
      bind (bind (stages_1_to_5 (_extract_newspaper_uid filename) df0)
                 stages_6_to_7)
           (fun df7 =>
              let df := _drop_rows_with_missing_values
                          (_remove_duplicate_entries df7 title) in
              Ok (df, _save_data df filename fs))).
Proof.
  unfold main, stages_1_to_5, stages_6_to_7.
  destruct (_read_data filename fs) as [df0|e]; simpl; [|done].
  destruct (_extract_host _) as [df2|e]; simpl; [|done].
  destruct (_fill_missing_titles _) as [df3|e]; simpl; [|done].
  destruct (_generate_uids_for_rows _) as [df4|e]; simpl; [|done].
  destruct (_remove_new_lines_from_body _) as [df5|e]; simpl; [|done].
  destruct (_tokenize_title _) as [df6|e]; simpl; [|done].
  by destruct (_tokenize_body _) as [df7|e].
Qed.

Lemma drop_duplicates_from_sublist (seen : list (cell string))
    (col : Row → cell string) (df : DataFrame) :
  sublist (Pandas.drop_duplicates_from seen col df) df.
Proof.
  revert seen. induction df as [|lr df IH]; intros seen; simpl; [done|].
  destruct (bool_decide _); by constructor.
Qed.

(** The final filter finds nothing to drop: every cleaned row is complete. *)
Lemma final_filter_keeps_all (source_id : string) (records : list RawRow)
    (rows : DataFrame) :
  mapM (clean_record source_id) records = Ok rows →
  _drop_rows_with_missing_values (_remove_duplicate_entries rows title)
  = Pandas.drop_duplicates title rows.
Proof.
  intros Hrows. unfold _drop_rows_with_missing_values, _remove_duplicate_entries.
  apply dropna_complete.
  assert (Hall : Forall (fun lr => Pandas.row_has_na (snd lr) = false) rows).
  { eapply (mapM_Forall (fun _ => True)); [|by apply Forall_true|exact Hrows].
    intros r lr _. apply clean_record_complete. }
  rewrite Forall_forall in Hall |- *. intros lr Hlr. apply Hall.
  eapply elem_of_sublist; [exact Hlr|apply drop_duplicates_from_sublist].
Qed.

(** The whole run succeeds exactly when the file holds at least one
    record and every record passes the row-wise steps; the result is then
    the cleaned records without repeated titles. *)
Lemma main_Ok (filename : string) (fs : filesystem) (out : DataFrame)
    (fs' : filesystem) :
  main filename fs = Ok (out, fs')
  ↔ ∃ contents records rows,
      fs !! filename = Some contents
      ∧ read_csv contents = Ok records
      ∧ records ≠ []
      ∧ mapM (clean_record (_extract_newspaper_uid filename)) records = Ok rows
      ∧ out = Pandas.drop_duplicates title rows
      ∧ fs' = _save_data out filename fs.
Proof.
  rewrite main_unfold. unfold _read_data. split.
  - intros Hb. inv_bind Hb.
    destruct (fs !! filename) as [contents|] eqn:Hfile; [|discriminate].
    inv_bind Hx. injection Hx as <-.
    apply stages_Ok in Hx0 as [Hne Hrows]; [|apply frame_of_records_raw].
    rewrite frame_of_records_steps in Hrows.
    rewrite (final_filter_keeps_all _ _ _ Hrows) in Hb.
    simpl in Hb. injection Hb as <- <-.
    exists contents, x1, x0. repeat split; try done.
    intros ->. by apply Hne.
  - intros (contents & records & rows & -> & -> & Hne & Hrows & -> & ->).
    simpl.
    assert (Hst : bind (stages_1_to_5 (_extract_newspaper_uid filename)
                          (frame_of_records records)) stages_6_to_7 = Ok rows).
    { apply stages_Ok; [apply frame_of_records_raw|]. split.
      - by rewrite frame_of_records_nil.
      - by rewrite frame_of_records_steps. }
    rewrite Hst. simpl.
    by rewrite (final_filter_keeps_all _ _ _ Hrows).
Qed.

End Pipeline.

(** ** Strings and digests *)

Lemma str_length (l : list ascii) : String.length (Py.str l) = length l.
Proof. induction l as [|c l IH]; simpl; [done|]. by rewrite IH. Qed.

Lemma chars_str (l : list ascii) : Py.chars (Py.str l) = l.
Proof. apply list_ascii_of_string_of_list_ascii. Qed.

Lemma append_length (a b : string) :
  String.length (String.append a b) = (String.length a + String.length b)%nat.
Proof. induction a as [|c a IH]; simpl; [done|]. by rewrite IH. Qed.

Lemma clean_name_fresh (filename : string) :
  String.append "clean_" filename ≠ filename.
Proof.
  intros Heq. apply (f_equal String.length) in Heq.
  rewrite append_length in Heq. simpl in Heq. lia.
Qed.

Lemma land_255_byte (x : Z) : 0 <= Z.land x 255 < 256.
Proof.
  change 255 with (Z.ones 8). rewrite Z.land_ones by lia.
  apply Z.mod_pos_bound. lia.
Qed.

Lemma hex_digit_ok (n : Z) :
  0 <= n < 16 → Py.char_in (MD5.hex_digit n) "0123456789abcdef" = true.
Proof.
  intros Hn.
  assert (Hcases : n = 0 ∨ n = 1 ∨ n = 2 ∨ n = 3 ∨ n = 4 ∨ n = 5 ∨ n = 6
                   ∨ n = 7 ∨ n = 8 ∨ n = 9 ∨ n = 10 ∨ n = 11 ∨ n = 12
                   ∨ n = 13 ∨ n = 14 ∨ n = 15) by lia.
  repeat (destruct Hcases as [->|Hcases]; [reflexivity|]).
  by subst n.
Qed.

Lemma hex_byte_ok (b : Z) :
  0 <= b < 256 →
  Forall (fun c => Py.char_in c "0123456789abcdef" = true) (MD5.hex_byte b).
Proof.
  intros Hb. unfold MD5.hex_byte.
  repeat constructor; apply hex_digit_ok.
  - rewrite Z.shiftr_div_pow2 by lia. change (2 ^ 4) with 16.
    split; [apply Z.div_pos; lia|apply Z.div_lt_upper_bound; lia].
  - change 15 with (Z.ones 4). rewrite Z.land_ones by lia.
    apply Z.mod_pos_bound. lia.
Qed.

Lemma word_bytes_ok (w : Z) :
  Forall (fun b => 0 <= b < 256) (MD5.word_bytes w).
Proof. unfold MD5.word_bytes. repeat constructor; apply land_255_byte. Qed.

(** *** The count of a text *)

Section Counting.

Context `{External}.

Lemma isalpha_alphabetic (t : string) : Py.isalpha t = true ↔ alphabetic t.
Proof.
  unfold Py.isalpha, alphabetic.
  rewrite <- (string_of_list_ascii_of_string t) at 2.
  unfold Py.chars.
  destruct (list_ascii_of_string t) as [|c cs] eqn:Hcs.
  - split; [done|]. by intros [? _].
  - rewrite forallb_forall, Forall_forall. split.
    + intros Hall. split; [done|]. intros x Hx. apply Hall.
      by apply list_elem_of_In.
    + intros [_ Hall] x Hx. apply Hall. by apply list_elem_of_In.
Qed.

Lemma count_tokens_counted (text : string) :
  count_tokens text = length (filter counted (word_tokenize text)).
Proof.
  unfold count_tokens.
  induction (word_tokenize text) as [|t ts IH]; [done|].
  rewrite filter_cons. simpl.
  pose proof (isalpha_alphabetic t) as Halpha.
  destruct (Py.isalpha t) eqn:Ht; simpl.
  - assert (alphabetic t) by by apply Halpha.
    unfold not_stop_word at 1.
    destruct (decide (counted t)) as [[_ Hns]|Hnc].
    + rewrite bool_decide_eq_false_2 by done. simpl. by rewrite IH.
    + rewrite bool_decide_eq_true_2; [done|].
      destruct (decide (Py.lower t ∈ stop_words)) as [|Hns]; [done|].
      exfalso. apply Hnc. by split.
  - destruct (decide (counted t)) as [[Ha _]|Hnc]; [|done].
    apply Halpha in Ha. discriminate.
Qed.


Lemma dropna_single (l : label) (r : Row) :
  Pandas.row_has_na r = false → Pandas.dropna [(l, r)] = [(l, r)].
Proof. intros Hna. apply dropna_complete. by constructor. Qed.

End Counting.

(** A digest prints as thirty-two lowercase hexadecimal digits. *)
Lemma hexdigest_hex32 (h : MD5.hash) : is_hex32 (MD5.hexdigest h).
Proof.
  unfold is_hex32, MD5.hexdigest, MD5.digest.
  generalize (MD5.blocks (length (MD5.pad (MD5.data h)) / 64) MD5.init
                (MD5.pad (MD5.data h))).
  intros st. split.
  - rewrite str_length. reflexivity.
  - rewrite chars_str. apply Forall_flat_map.
    rewrite !Forall_app. repeat split;
      (eapply Forall_impl; [apply word_bytes_ok|apply hex_byte_ok]).
Qed.

Lemma mapM_elem_of {A B : Type} (f : A → result B) (xs : list A)
    (ys : list B) (y : B) :
  mapM f xs = Ok ys → y ∈ ys → ∃ x, x ∈ xs ∧ f x = Ok y.
Proof.
  intros Hys. apply mapM_Forall2 in Hys.
  induction Hys as [|x y' xs ys Hy Hys IH]; intros Hin.
  - by apply elem_of_nil in Hin.
  - apply elem_of_cons in Hin as [->|Hin].
    + exists x. split; [left|done].
    + destruct (IH Hin) as (x' & Hx' & Hfx'). exists x'. split; [by right|done].
Qed.

Section Output.

Context `{External}.

(** Every row of the output is a cleaned record of the file. *)
Lemma main_output_row (filename : string) (fs fs' : filesystem)
    (out : DataFrame) (l : label) (row : Row) :
  main filename fs = Ok (out, fs') → (l, row) ∈ out →
  ∃ r, clean_record (_extract_newspaper_uid filename) r = Ok (l, row).
Proof.
  intros Hmain Hin.
  apply main_Ok in Hmain
    as (contents & records & rows & _ & _ & _ & Hrows & -> & _).
  assert (Hin' : (l, row) ∈ rows).
  { eapply elem_of_sublist; [exact Hin|apply drop_duplicates_from_sublist]. }
  destruct (mapM_elem_of _ _ _ _ Hrows Hin') as (r & _ & Hr). by exists r.
Qed.

End Output.

(** ** Removing duplicates *)

Section Duplicates.

Variable col : Row → cell string.

Local Abbreviation key := (key_of col).

Lemma drop_duplicates_from_snoc (seen : list (cell string)) (df : DataFrame)
    (lr : label * Row) :
  Pandas.drop_duplicates_from seen col (df ++ [lr])
  = Pandas.drop_duplicates_from seen col df
    ++ (if bool_decide (key lr ∈ seen ++ map key df) then [] else [lr]).
Proof.
  revert seen. induction df as [|a df IH]; intros seen; simpl.
  - rewrite app_nil_r. fold (key lr). by destruct (bool_decide _).
  - fold (key a). destruct (bool_decide (key a ∈ seen)) eqn:Ha.
    + rewrite IH. f_equal. apply bool_decide_eq_true in Ha.
      rewrite (bool_decide_ext (key lr ∈ seen ++ key a :: map key df)
                               (key lr ∈ seen ++ map key df)); [done|].
      rewrite !elem_of_app, elem_of_cons. split.
      * intros [Hs|[Heq|Hm]]; [by left|left; by rewrite Heq|by right].
      * intros [Hs|Hm]; [by left|right; by right].
    + simpl. rewrite IH. f_equal. f_equal.
      rewrite (bool_decide_ext (key lr ∈ seen ++ key a :: map key df)
                               (key lr ∈ (key a :: seen) ++ map key df)); [done|].
      rewrite !elem_of_app, !elem_of_cons. tauto.
Qed.

Lemma drop_duplicates_from_fresh (seen : list (cell string)) (df : DataFrame)
    (lr : label * Row) :
  lr ∈ Pandas.drop_duplicates_from seen col df → key lr ∉ seen.
Proof.
  revert seen. induction df as [|a df IH]; intros seen; simpl.
  - intros Hin. by apply elem_of_nil in Hin.
  - fold (key a). destruct (bool_decide (key a ∈ seen)) eqn:Ha.
    + apply IH.
    + apply bool_decide_eq_false in Ha.
      intros Hin. apply elem_of_cons in Hin as [->|Hin]; [done|].
      apply IH in Hin. rewrite not_elem_of_cons in Hin. by destruct Hin.
Qed.

Lemma drop_duplicates_from_NoDup (seen : list (cell string)) (df : DataFrame) :
  NoDup (map key (Pandas.drop_duplicates_from seen col df)).
Proof.
  revert seen. induction df as [|a df IH]; intros seen; simpl.
  - constructor.
  - fold (key a). destruct (bool_decide (key a ∈ seen)); [apply IH|].
    simpl. constructor; [|apply IH].
    intros Hin. apply list_elem_of_fmap in Hin as (lr & Heq & Hin).
    apply drop_duplicates_from_fresh in Hin. apply Hin. rewrite Heq. left.
Qed.

Lemma drop_duplicates_from_covers (seen : list (cell string)) (df : DataFrame)
    (lr : label * Row) :
  lr ∈ df →
  key lr ∈ seen ∨ key lr ∈ map key (Pandas.drop_duplicates_from seen col df).
Proof.
  revert seen. induction df as [|a df IH]; intros seen Hin; simpl.
  - by apply elem_of_nil in Hin.
  - fold (key a). apply elem_of_cons in Hin as [->|Hin].
    + destruct (bool_decide (key a ∈ seen)) eqn:Ha.
      * left. by apply bool_decide_eq_true in Ha.
      * right. simpl. left.
    + destruct (bool_decide (key a ∈ seen)) eqn:Ha.
      * by apply IH.
      * destruct (IH (key a :: seen) Hin) as [Hs|Hr].
        -- apply elem_of_cons in Hs as [->|Hs]; [right; simpl; left|by left].
        -- right. simpl. by right.
Qed.

(** A row none of whose predecessors has its value is kept. *)
Lemma drop_duplicates_from_first (seen : list (cell string)) (df : DataFrame)
    (i : nat) (lr : label * Row) :
  df !! i = Some lr →
  key lr ∉ seen →
  (∀ j lr', (j < i)%nat → df !! j = Some lr' → key lr' ≠ key lr) →
  lr ∈ Pandas.drop_duplicates_from seen col df.
Proof.
  revert seen i. induction df as [|a df IH]; intros seen i Hi Hseen Hfirst.
  - done.
  - simpl. fold (key a). destruct i as [|i]; simpl in Hi.
    + injection Hi as ->.
      rewrite bool_decide_eq_false_2 by done. left.
    + assert (Ha : key a ≠ key lr) by (apply (Hfirst 0%nat a); [lia|done]).
      assert (Hrest : ∀ j lr', (j < i)%nat → df !! j = Some lr' → key lr' ≠ key lr).
      { intros j lr' Hj Hlr'. apply (Hfirst (S j) lr'); [lia|done]. }
      destruct (bool_decide (key a ∈ seen)).
      * by apply (IH seen i).
      * right. apply (IH (key a :: seen) i); [done| |done].
        rewrite not_elem_of_cons. split; [done|done].
Qed.

End Duplicates.

(** ** The title derived from a url *)

Lemma match_here_segment (m : list ascii) :
  m ≠ [] → Forall (fun c => Py.eqc c "/" = false) m →
  Re.match_here m = Some m.
Proof.
  induction m as [|c m IH]; intros Hne Hm; [done|].
  inversion Hm as [|? ? Hc Hm']; subst. simpl. rewrite Hc.
  destruct m as [|c' m]; [done|].
  by rewrite IH.
Qed.

Lemma match_here_slash (x rest : list ascii) :
  Re.match_here (x ++ "/"%char :: rest) = None.
Proof.
  induction x as [|c x IH]; simpl; [done|].
  destruct (Py.eqc c "/"); [done|].
  rewrite IH. destruct x as [|c' [|c'' x]]; simpl; [|done|done].
  by destruct rest.
Qed.

(** The match is the text after the last slash. *)
Lemma search_last_segment (pre m : list ascii) :
  m ≠ [] → Forall (fun c => Py.eqc c "/" = false) m →
  Re.search (pre ++ "/"%char :: m) = Some m
  ∧ Re.search m = Some m.
Proof.
  intros Hne Hm.
  assert (Hsearch : Re.search m = Some m).
  { destruct m as [|c m]; [done|].
    unfold Re.search. by rewrite match_here_segment. }
  split; [|done].
  induction pre as [|c pre IH].
  - simpl. exact Hsearch.
  - change ((c :: pre) ++ "/"%char :: m) with (c :: (pre ++ "/"%char :: m)).
    cbn [Re.search].
    change (c :: pre ++ "/"%char :: m) with ((c :: pre) ++ "/"%char :: m).
    by rewrite match_here_slash.
Qed.

(** A text that ends in a slash, like the empty text, has no match. *)
Lemma search_trailing_slash (pre : list ascii) :
  Re.search (pre ++ ["/"%char]) = None.
Proof.
  induction pre as [|c pre IH]; [done|].
  change ((c :: pre) ++ ["/"%char]) with (c :: (pre ++ ["/"%char])).
  cbn [Re.search].
  change (c :: pre ++ ["/"%char]) with ((c :: pre) ++ ["/"%char]).
  by rewrite match_here_slash.
Qed.

Lemma split_chars_nonempty (sep : ascii) (cs : list ascii) :
  Py.split_chars sep cs ≠ [].
Proof.
  destruct cs as [|c cs]; simpl; [done|].
  destruct (Py.eqc c sep); [done|].
  by destruct (Py.split_chars sep cs).
Qed.

Lemma join_cons_char (sep : string) (c : ascii) (p : list ascii)
    (ps : list string) :
  Py.join sep (Py.str (c :: p) :: ps) = String c (Py.join sep (Py.str p :: ps)).
Proof. by destruct ps. Qed.

(** Splitting at the hyphens and joining with spaces replaces each hyphen
    by a space. *)
Lemma join_split_hyphens (t : string) :
  Py.join " " (Py.split "-" t) = Py.replace_char "-" " " t.
Proof.
  unfold Py.split, Py.replace_char.
  induction (Py.chars t) as [|c cs IH]; [done|].
  simpl. destruct (Py.eqc c "-") eqn:Hc.
  - pose proof (split_chars_nonempty "-" cs) as Hne.
    change (map Py.str ([] :: Py.split_chars "-" cs))
      with (EmptyString :: map Py.str (Py.split_chars "-" cs)).
    destruct (Py.split_chars "-" cs) as [|p ps] eqn:Hsplit; [done|].
    change (Py.join " " (EmptyString :: map Py.str (p :: ps)))
      with (String " " (Py.join " " (map Py.str (p :: ps)))).
    by rewrite IH.
  - destruct (Py.split_chars "-" cs) as [|p ps] eqn:Hsplit.
    + by pose proof (split_chars_nonempty "-" cs).
    + change (map Py.str ((c :: p) :: ps))
        with (Py.str (c :: p) :: map Py.str ps).
      rewrite join_cons_char.
      change (map Py.str (p :: ps)) with (Py.str p :: map Py.str ps) in IH.
      by rewrite IH.
Qed.

(** The fallback title of a url with a last path segment is that segment
    with its hyphens replaced by spaces. *)
Lemma fallback_title_segment (pre segment : list ascii) :
  segment ≠ [] → Forall (fun c => Py.eqc c "/" = false) segment →
  fallback_title (Py.str (pre ++ "/"%char :: segment))
  = Ok (Py.replace_char "-" " " (Py.str segment)).
Proof.
  intros Hne Hseg. unfold fallback_title, str_extract.
  rewrite chars_str.
  destruct (search_last_segment pre segment Hne Hseg) as [-> _].
  simpl. by rewrite join_split_hyphens.
Qed.

(** A url that ends in a slash has no fallback title. *)
Lemma fallback_title_trailing_slash (pre : list ascii) :
  fallback_title (Py.str (pre ++ ["/"%char])) = Raise AttributeError.
Proof.
  unfold fallback_title, str_extract.
  by rewrite chars_str, search_trailing_slash.
Qed.

(** A row without body stops stage 5. *)
Lemma missing_body_raises (df df' : DataFrame) (l : label) (r : Row) :
  (l, r) ∈ df → body r = NaN → _remove_new_lines_from_body df ≠ Ok df'.
Proof.
  intros Hin Hbody Hrun. rewrite remove_new_lines_rows in Hrun.
  apply mapM_Forall2 in Hrun.
  apply list_elem_of_lookup in Hin as [i Hi].
  destruct (Forall2_lookup_l _ _ _ _ _ Hrun Hi) as (lr' & _ & Hstep).
  unfold body_step in Hstep. simpl in Hstep. rewrite Hbody in Hstep.
  discriminate.
Qed.

(** A row without url stops stage 2. *)
Lemma missing_url_raises `{External} (df df' : DataFrame) (l : label) (r : Row) :
  (l, r) ∈ df → url r = NaN → _extract_host df ≠ Ok df'.
Proof.
  intros Hin Hurl Hrun. rewrite extract_host_rows in Hrun.
  apply mapM_Forall2 in Hrun.
  apply list_elem_of_lookup in Hin as [i Hi].
  destruct (Forall2_lookup_l _ _ _ _ _ Hrun Hi) as (lr' & _ & Hstep).
  unfold host_step in Hstep. simpl in Hstep. rewrite Hurl in Hstep.
  discriminate.
Qed.

Lemma title_step_present (lr lr' : label * Row) :
  title_step lr = Ok lr' → present (title (snd lr')).
Proof.
  unfold title_step. destruct lr as [l r]. simpl.
  destruct (title r) as [|t] eqn:Ht; simpl.
  - intros Hb. inv_bind Hb. injection Hb as <-. simpl. by eexists.
  - intros [= <-]. simpl. rewrite Ht. by exists t.
Qed.

Lemma fill_missing_titles_steps (df df' : DataFrame) :
  _fill_missing_titles df = Ok df' → mapM title_step df = Ok df'.
Proof.
  unfold _fill_missing_titles. intros Hb. inv_bind Hb.
  assert (Hsel : x = map (fun lr : label * Row => url (snd lr))
                   (List.filter (fun lr : label * Row => isna (title (snd lr))) df)).
  { unfold str_accessor in Hx. destruct (map _ df); [by injection Hx|].
    destruct (forallb isna _); [discriminate|by injection Hx]. }
  subst x. rewrite <- fill_missing_titles_loop. by rewrite Hx0.
Qed.

(** When the repair returns, no title is missing. *)
Lemma fill_missing_titles_present (df df' : DataFrame) :
  _fill_missing_titles df = Ok df' →
  Forall (fun lr => present (title (snd lr))) df'.
Proof.
  intros Hfill. apply fill_missing_titles_steps in Hfill.
  eapply (mapM_Forall (fun _ => True)); [|by apply Forall_true|exact Hfill].
  intros lr lr' _. apply title_step_present.
Qed.

(** ** The library models on known values *)

Example md5_of_nothing :
  MD5.hexdigest (MD5.md5 (Py.encode EmptyString))
  = "d41d8cd98f00b204e9800998ecf8427e"%string.
Proof. vm_compute. reflexivity. Qed.

Example md5_of_abc :
  MD5.hexdigest (MD5.md5 (Py.encode "abc"))
  = "900150983cd24fb0d6963f7d28e17f72"%string.
Proof. vm_compute. reflexivity. Qed.

Example md5_of_two_blocks :
  MD5.hexdigest (MD5.md5 (Py.encode
    "aaaaaaaaaaaaaaaaaaaaaaaaaaaaaaaaaaaaaaaaaaaaaaaaaaaaaaaaaaaaaaaa"))
  = "014842d480b571495a4a0363793f7367"%string.
Proof. vm_compute. reflexivity. Qed.

Example md5_of_n_tilde :
  MD5.hexdigest (MD5.md5 (Py.encode (String (ascii_of_nat 241) EmptyString)))
  = "94e9342ecbb1458b6043ecd3bfcbc192"%string.
Proof. vm_compute. reflexivity. Qed.

Example host_of_example_com (check : string → bool) :
  Urllib.netloc check "https://example.com/a/b" = Ok "example.com"%string.
Proof. vm_compute. reflexivity. Qed.

Example host_of_relative_url (check : string → bool) :
  Urllib.netloc check "no-host" = Ok EmptyString.
Proof. vm_compute. reflexivity. Qed.

Example host_with_open_bracket (check : string → bool) :
  Urllib.netloc check "http://[x/" = Raise ValueError.
Proof. vm_compute. reflexivity. Qed.

Example title_of_hyphenated_url :
  fallback_title "https://site.test/news/this-is-a-title"
  = Ok "this is a title"%string.
Proof. vm_compute. reflexivity. Qed.

Example tokens_of_sample_text :
  Reference.tokenize "The Quick Fox! 2 Jumps"
  = ["The"; "Quick"; "Fox"; "!"; "2"; "Jumps"]%string.
Proof. vm_compute. reflexivity. Qed.

(** On a table built by hand, stage 6 gives a row without body a missing
    count; in a run no such row reaches the stage. *)
Example row_without_body_gets_no_count :
  @_tokenize_title Demo.E Demo.partial = Ok Demo.partial_counted.
Proof. vm_compute. reflexivity. Qed.

(** A record without body stops the run at stage 5. *)
Example record_without_body_raises :
  Reference.returned
    (@main Demo.E Demo.filename
       (Reference.disk Demo.stops Demo.filename
          [ mkRaw (Val "https://n.test/a/hello-world") NaN (Val Demo.two_lines);
            mkRaw (Val "https://n.test/b/hello-world") NaN (Val "x");
            mkRaw (Val "https://n.test/c/story") (Val "Story") NaN ]))
  = Raise TypeError.
Proof. vm_compute. reflexivity. Qed.

(** ** The properties of the specification *)

Section Claims.

Context `{External}.

(** C1. Every row of the table the orchestrator returns has a value in
    each of url, title, body, host, newspaper_uid, n_tokens_title and
    n_tokens_body. *)
Theorem C1_output_rows_complete (filename : string) (fs fs' : filesystem)
    (out : DataFrame) :
  main filename fs = Ok (out, fs') →
  ∀ l r, (l, r) ∈ out →
    present (url r) ∧ present (title r) ∧ present (body r)
    ∧ column_present (host r) ∧ column_present (newspaper_uid r)
    ∧ column_present (n_tokens_title r) ∧ column_present (n_tokens_body r).
Proof.
  intros Hmain l r Hin.
  destruct (main_output_row _ _ _ _ _ _ Hmain Hin) as (raw & Hraw).
  apply clean_record_Ok in Hraw as (u & t & b & h & _ & _ & _ & _ & _ & ->).
  simpl. unfold present, column_present. naive_solver.
Qed.

(** C2. The orchestrator is the sequential composition of nine stages, in
    this order and with no branching: attach the source id, extract the
    host, repair the titles, assign the uid and make it the row key,
    normalize the body, count the title tokens, count the body tokens,
    deduplicate on the title, drop the rows with a missing value. *)
Theorem C2_main_is_nine_stages_in_order (filename : string) (fs : filesystem) :
  length (spec_stages (_extract_newspaper_uid filename)) = 9%nat
  ∧ main filename fs
    = bind (_read_data filename fs) (fun df =>
        bind (run_stages (spec_stages (_extract_newspaper_uid filename)) df)
             (fun df => Ok (df, _save_data df filename fs))).
Proof.
  split; [reflexivity|].
  unfold main, run_stages, spec_stages. simpl.
  destruct (_read_data filename fs) as [df0|e]; simpl; [|done].
  destruct (_extract_host _) as [df2|e]; simpl; [|done].
  destruct (_fill_missing_titles _) as [df3|e]; simpl; [|done].
  destruct (_generate_uids_for_rows _) as [df4|e]; simpl; [|done].
  destruct (_remove_new_lines_from_body _) as [df5|e]; simpl; [|done].
  destruct (_tokenize_title _) as [df6|e]; simpl; [|done].
  by destruct (_tokenize_body _) as [df7|e].
Qed.

(** C3. Deduplicating on the title scans the rows in order and keeps a
    row exactly when no earlier row has its title: the result has no
    repeated title, keeps the order of the input, still holds every title
    of the input, and rows titled A, B, A, C leave the titles A, B, C. *)
Theorem C3_deduplicate_keeps_first_of_each_title (df : DataFrame) :
  (∀ lr, _remove_duplicate_entries (df ++ [lr]) title
         = _remove_duplicate_entries df title
           ++ (if bool_decide
                    (title (snd lr) ∈ map (fun x => title (snd x)) df)
               then [] else [lr]))
  ∧ NoDup (map (fun x => title (snd x)) (_remove_duplicate_entries df title))
  ∧ sublist (_remove_duplicate_entries df title) df
  ∧ (∀ lr, lr ∈ df →
       title (snd lr)
       ∈ map (fun x => title (snd x)) (_remove_duplicate_entries df title))
  ∧ (map (fun x => title (snd x)) df = [Val "A"; Val "B"; Val "A"; Val "C"] →
     map (fun x => title (snd x)) (_remove_duplicate_entries df title)
     = [Val "A"; Val "B"; Val "C"]).
Proof.
  unfold _remove_duplicate_entries, Pandas.drop_duplicates.
  repeat split.
  - intros lr. apply (drop_duplicates_from_snoc title [] df lr).
  - apply (drop_duplicates_from_NoDup title).
  - apply drop_duplicates_from_sublist.
  - intros lr Hin.
    destruct (drop_duplicates_from_covers title [] df lr Hin) as [Hs|Hr]; [|done].
    by apply elem_of_nil in Hs.
  - intros Htitles.
    destruct df as [|[l1 r1] [|[l2 r2] [|[l3 r3] [|[l4 r4] [|? ?]]]]];
      try discriminate.
    destruct r1, r2, r3, r4. simpl in Htitles.
    injection Htitles as -> -> -> ->. vm_compute. reflexivity.
Qed.

(** C4. The title repair does not give the empty title to a row without
    title whose url ends in a slash: the pattern finds no last segment,
    the step raises [AttributeError], and no table comes out of it. *)
Theorem C4_title_repair_raises_on_trailing_slash :
  (∀ (df df' : DataFrame) (l : label) (r : Row) (pre : list ascii),
     (l, r) ∈ df → title r = NaN → url r = Val (Py.str (pre ++ ["/"%char])) →
     _fill_missing_titles df ≠ Ok df')
  ∧ _fill_missing_titles Demo.trailing_slash_frame = Raise AttributeError
  ∧ Reference.returned
      (@main Demo.E Demo.filename
         (Reference.disk Demo.stops Demo.filename Demo.trailing_slash))
    = Raise AttributeError.
Proof.
  split; [|split; vm_compute; reflexivity].
  intros df df' l r pre Hin Htitle Hurl Hfill.
  apply fill_missing_titles_steps, mapM_Forall2 in Hfill.
  apply list_elem_of_lookup in Hin as [i Hi].
  destruct (Forall2_lookup_l _ _ _ _ _ Hfill Hi) as (lr' & _ & Hstep).
  unfold title_step in Hstep. simpl in Hstep.
  rewrite Htitle, Hurl in Hstep. simpl in Hstep.
  rewrite chars_str, search_trailing_slash in Hstep. discriminate.
Qed.

(** C5. The count that [_tokenize_column] gives a text is the number of
    its tokens that consist of letters only and whose lowercase form is no
    stop word: on a table with a complete row the stage returns, for each
    complete row in order, the label of the row with that number for the
    text of its column.  A text for which the tokenizer returns no token,
    as the empty text, counts 0; and "The Quick Fox! 2 Jumps" counts 3
    when the tokenizer splits it into The, Quick, Fox, !, 2 and Jumps and
    the only stop word is "the". *)
Theorem C5_tokenize_column_counts_alphabetic_non_stop_words :
  (∀ df column_name,
     column_name = title ∨ column_name = body →
     Pandas.dropna df ≠ [] →
     ∃ s, _tokenize_column df column_name = Ok s
          ∧ Forall2 (fun lr count =>
                       fst count = fst lr
                       ∧ ∃ text,
                           column_name (snd lr) = Val text
                           ∧ snd count
                             = length (filter counted (word_tokenize text)))
                    (Pandas.dropna df) s)
  ∧ (∀ column_name l r,
       column_name = title ∨ column_name = body →
       Pandas.row_has_na r = false →
       column_name r = Val EmptyString →
       word_tokenize EmptyString = [] →
       _tokenize_column [(l, r)] column_name = Ok [(l, 0%nat)])
  ∧ (∀ column_name l r,
       column_name = title ∨ column_name = body →
       Pandas.row_has_na r = false →
       column_name r = Val "The Quick Fox! 2 Jumps" →
       word_tokenize "The Quick Fox! 2 Jumps"
       = ["The"; "Quick"; "Fox"; "!"; "2"; "Jumps"]%string →
       stop_words = {[ "the"%string ]} →
       _tokenize_column [(l, r)] column_name = Ok [(l, 3%nat)]).
Proof.
  assert (Hpresent : ∀ column_name,
            column_name = title ∨ column_name = body →
            ∀ r, Pandas.row_has_na r = false → present (column_name r)).
  { intros column_name [->| ->]; [apply row_has_na_title|apply row_has_na_body]. }
  split; [|split].
  - intros df column_name Hcol Hne.
    exists (map (fun lr => (fst lr, count_cell (column_name (snd lr))))
                (Pandas.dropna df)).
    split; [by apply tokenize_column_Ok; [apply Hpresent|]|].
    apply Forall2_fmap_r, Forall_Forall2_diag, Forall_forall.
    intros [l r] Hin. apply dropna_In in Hin as [_ Hna]. simpl in *.
    split; [done|].
    destruct (Hpresent column_name Hcol r Hna) as [text Htext].
    exists text. split; [done|]. rewrite Htext. simpl.
    apply count_tokens_counted.
  - intros column_name l r Hcol Hna Htext Hempty.
    rewrite tokenize_column_Ok; [|by apply Hpresent|].
    + rewrite dropna_single by done. simpl. rewrite Htext. simpl.
      unfold count_tokens. by rewrite Hempty.
    + by rewrite dropna_single.
  - intros column_name l r Hcol Hna Htext Htokens Hstops.
    rewrite tokenize_column_Ok; [|by apply Hpresent|].
    + rewrite dropna_single by done. simpl. rewrite Htext. simpl.
      unfold count_tokens, not_stop_word. rewrite Htokens, Hstops.
      vm_compute. reflexivity.
    + by rewrite dropna_single.
Qed.


(** C7, amended. A url without network location is no failure and no
    missing field: whenever the run returns, the row of such a url has
    the empty string as its host and is in the output, unless an earlier
    row has the same title. *)
Theorem C7_row_without_host_is_kept (filename : string) (fs fs' : filesystem)
    (out : DataFrame) (contents : csv) (records : list RawRow) (i : nat)
    (r : RawRow) (u : string) :
  main filename fs = Ok (out, fs') →
  fs !! filename = Some contents →
  read_csv contents = Ok records →
  records !! i = Some r →
  raw_url r = Val u →
  urlparse_netloc (Val u) = Ok EmptyString →
  (∀ j r', (j < i)%nat → records !! j = Some r' →
           repaired_title r' ≠ repaired_title r) →
  ∃ row, (Uid (assign_id u), row) ∈ out
         ∧ url row = Val u
         ∧ host row = Some (Val EmptyString)
         ∧ Pandas.row_has_na row = false.
Proof.
  intros Hmain Hfile Hread Hi Hu Hhost Hfirst.
  apply main_Ok in Hmain
    as (contents' & records' & rows & Hfile' & Hread' & _ & Hrows & -> & _).
  rewrite Hfile in Hfile'. injection Hfile' as <-.
  rewrite Hread in Hread'. injection Hread' as <-.
  apply mapM_Forall2 in Hrows.
  destruct (Forall2_lookup_l _ _ _ _ _ Hrows Hi) as ([l row] & Hlr & Hclean).
  pose proof (clean_record_Ok _ _ _ _ Hclean)
    as (u' & t & b & h & Hu' & Hh & Ht & _ & -> & Hrow).
  rewrite Hu in Hu'. injection Hu' as <-.
  simpl in Hhost. rewrite Hhost in Hh. injection Hh as <-.
  exists row. split; [|by subst row].
  apply (drop_duplicates_from_first title [] rows i); [done|apply not_elem_of_nil|].
  intros j [l' row'] Hj Hlr'. simpl.
  destruct (Forall2_lookup_r _ _ _ _ _ Hrows Hlr') as (r' & Hr' & Hclean').
  pose proof (clean_record_Ok _ _ _ _ Hclean')
    as (? & t' & ? & ? & _ & _ & Ht' & _ & _ & ->).
  subst row. simpl. intros [= ->].
  apply (Hfirst j r' Hj Hr'). by rewrite Ht, Ht'.
Qed.

(** C8. The uid is a function of the url alone, and a second run on the
    files the first run leaves behind returns the same table and leaves
    the same files. *)
Theorem C8_runs_are_deterministic (filename : string) (fs fs1 : filesystem)
    (out : DataFrame) :
  main filename fs = Ok (out, fs1) →
  main filename fs1 = Ok (out, fs1)
  ∧ (∀ filename' fs0' fs1' out', main filename' fs0' = Ok (out', fs1') →
       ∀ l r l' r', (l, r) ∈ out → (l', r') ∈ out' → url r = url r' → l = l').
Proof.
  intros Hmain. split.
  - apply main_Ok in Hmain
      as (contents & records & rows & Hfile & Hread & Hne & Hrows & -> & ->).
    apply main_Ok. exists contents, records, rows. repeat split; try done.
    + unfold _save_data. rewrite lookup_insert_ne; [done|].
      apply clean_name_fresh.
    + unfold _save_data. by rewrite insert_insert_eq.
  - intros filename' fs0' fs1' out' Hmain' l r l' r' Hin Hin' Hurl.
    destruct (main_output_row _ _ _ _ _ _ Hmain Hin) as (raw & Hraw).
    destruct (main_output_row _ _ _ _ _ _ Hmain' Hin') as (raw' & Hraw').
    apply clean_record_Ok in Hraw as (u & ? & ? & ? & _ & _ & _ & _ & -> & ->).
    apply clean_record_Ok in Hraw' as (u' & ? & ? & ? & _ & _ & _ & _ & -> & ->).
    simpl in Hurl. by injection Hurl as ->.
Qed.

(** C9. On a file without records the run does not produce an empty
    table: stage 4 raises [ValueError]. *)
Theorem C9_empty_batch_raises (filename : string) (fs : filesystem)
    (contents : csv) :
  fs !! filename = Some contents →
  read_csv contents = Ok [] →
  main filename fs = Raise ValueError.
Proof.
  intros Hfile Hread. unfold main, _read_data. rewrite Hfile, Hread.
  reflexivity.
Qed.

(** C10. The uid of a row is the MD5 digest of the UTF-8 encoding of its
    url, printed as thirty-two lowercase hexadecimal digits; it is the
    label of the row in the table that is returned, and that table is the
    one written to the clean file. *)
Theorem C10_uid_is_md5_of_url (filename : string) (fs fs' : filesystem)
    (out : DataFrame) :
  main filename fs = Ok (out, fs') →
  (∀ l r, (l, r) ∈ out →
     ∃ u, url r = Val u
          ∧ l = Uid (MD5.hexdigest (MD5.md5 (Py.encode u)))
          ∧ is_hex32 (MD5.hexdigest (MD5.md5 (Py.encode u))))
  ∧ fs' !! String.append "clean_" filename = Some (to_csv out).
Proof.
  intros Hmain. split.
  - intros l r Hin.
    destruct (main_output_row _ _ _ _ _ _ Hmain Hin) as (raw & Hraw).
    apply clean_record_Ok in Hraw as (u & t & b & h & _ & _ & _ & _ & -> & ->).
    exists u. repeat split; try done; apply hexdigest_hex32.
  - apply main_Ok in Hmain as (? & ? & ? & _ & _ & _ & _ & _ & ->).
    unfold _save_data. apply lookup_insert_eq.
Qed.

End Claims.

(** ** The properties on the sample batches *)

Lemma C1_witness :
  @main Demo.E Demo.filename Demo.fs
  = Ok (Demo.out, @_save_data Demo.E Demo.out Demo.filename Demo.fs)
  ∧ (∀ l r, (l, r) ∈ Demo.out →
       present (url r) ∧ present (title r) ∧ present (body r)
       ∧ column_present (host r) ∧ column_present (newspaper_uid r)
       ∧ column_present (n_tokens_title r) ∧ column_present (n_tokens_body r)).
Proof.
  assert (Hrun : @main Demo.E Demo.filename Demo.fs
                 = Ok (Demo.out, @_save_data Demo.E Demo.out Demo.filename Demo.fs))
    by (vm_compute; reflexivity).
  split; [exact Hrun|].
  exact (@C1_output_rows_complete Demo.E _ _ _ _ Hrun).
Defined.

Lemma C3_witness :
  map (fun x => title (snd x)) Demo.abac = [Val "A"; Val "B"; Val "A"; Val "C"]
  ∧ map (fun x => title (snd x)) (_remove_duplicate_entries Demo.abac title)
    = [Val "A"; Val "B"; Val "C"].
Proof.
  assert (Htitles : map (fun x => title (snd x)) Demo.abac
                    = [Val "A"; Val "B"; Val "A"; Val "C"]) by reflexivity.
  split; [exact Htitles|].
  exact (proj2 (proj2 (proj2 (proj2
           (C3_deduplicate_keeps_first_of_each_title Demo.abac)))) Htitles).
Defined.

Lemma C4_witness :
  (RangeIndex 0,
   mkRow (Val "https://site.test/news/") NaN (Val "x")
         (Some (Val "n")) (Some (Val "site.test")) None None)
  ∈ Demo.trailing_slash_frame
  ∧ _fill_missing_titles Demo.trailing_slash_frame ≠ Ok [].
Proof.
  assert (Hin : (RangeIndex 0,
                 mkRow (Val "https://site.test/news/") NaN (Val "x")
                       (Some (Val "n")) (Some (Val "site.test")) None None)
                ∈ Demo.trailing_slash_frame) by left.
  split; [exact Hin|].
  exact (proj1 C4_title_repair_raises_on_trailing_slash
           Demo.trailing_slash_frame [] _ _
           (Py.chars "https://site.test/news") Hin eq_refl eq_refl).
Defined.

Lemma C5_witness :
  (∃ s, @_tokenize_column Demo.E Demo.partial title = Ok s
        ∧ Forall2 (fun lr count =>
                     fst count = fst lr
                     ∧ ∃ text,
                         title (snd lr) = Val text
                         ∧ snd count
                           = length (filter (@counted Demo.E)
                                       (@word_tokenize Demo.E text)))
                  (Pandas.dropna Demo.partial) s)
  ∧ @_tokenize_column Demo.E [Demo2.entitled EmptyString] title
    = Ok [(Uid "a", 0%nat)]
  ∧ @_tokenize_column Demo.E [Demo2.entitled "The Quick Fox! 2 Jumps"] title
    = Ok [(Uid "a", 3%nat)].
Proof.
  pose proof (@C5_tokenize_column_counts_alphabetic_non_stop_words Demo.E)
    as (Hcounts & Hempty & Hsample).
  split; [|split].
  - apply Hcounts; [by left|]. vm_compute. discriminate.
  - apply (Hempty title); [by left|reflexivity|reflexivity|reflexivity].
  - apply (Hsample title); [by left|reflexivity|reflexivity|reflexivity|reflexivity].
Defined.


Lemma C7_witness :
  @urlparse_netloc Demo.E (Val "no-host") = Ok EmptyString
  ∧ ∃ row, (Uid (assign_id "no-host"), row) ∈ Demo.out
           ∧ url row = Val "no-host"
           ∧ host row = Some (Val EmptyString)
           ∧ Pandas.row_has_na row = false.
Proof.
  assert (Hhost : @urlparse_netloc Demo.E (Val "no-host") = Ok EmptyString)
    by (vm_compute; reflexivity).
  split; [exact Hhost|].
  apply (@C7_row_without_host_is_kept Demo.E Demo.filename Demo.fs
           (@_save_data Demo.E Demo.out Demo.filename Demo.fs) Demo.out
           (Reference.Scraped Demo.records) Demo.records 2%nat
           (mkRaw (Val "no-host") (Val "The Title") (Val "x")) "no-host").
  - vm_compute. reflexivity.
  - vm_compute. reflexivity.
  - reflexivity.
  - reflexivity.
  - reflexivity.
  - exact Hhost.
  - intros j r' Hj Hr'.
    destruct j as [|[|j]]; [| |lia];
      simpl in Hr'; injection Hr' as <-; vm_compute; discriminate.
Defined.

Lemma C8_witness :
  @main Demo.E Demo.filename Demo.fs
  = Ok (Demo.out, @_save_data Demo.E Demo.out Demo.filename Demo.fs)
  ∧ @main Demo.E Demo.filename
      (@_save_data Demo.E Demo.out Demo.filename Demo.fs)
    = Ok (Demo.out, @_save_data Demo.E Demo.out Demo.filename Demo.fs).
Proof.
  assert (Hrun : @main Demo.E Demo.filename Demo.fs
                 = Ok (Demo.out, @_save_data Demo.E Demo.out Demo.filename Demo.fs))
    by (vm_compute; reflexivity).
  split; [exact Hrun|].
  exact (proj1 (@C8_runs_are_deterministic Demo.E _ _ _ _ Hrun)).
Defined.

Lemma C9_witness :
  Reference.disk Demo.stops Demo.filename [] !! Demo.filename
  = Some (Reference.Scraped [])
  ∧ @main Demo.E Demo.filename (Reference.disk Demo.stops Demo.filename [])
    = Raise ValueError.
Proof.
  assert (Hfile : Reference.disk Demo.stops Demo.filename [] !! Demo.filename
                  = Some (Reference.Scraped [])) by (vm_compute; reflexivity).
  split; [exact Hfile|].
  exact (@C9_empty_batch_raises Demo.E Demo.filename
           (Reference.disk Demo.stops Demo.filename [])
           (Reference.Scraped []) Hfile eq_refl).
Defined.

Lemma C10_witness :
  @main Demo.E Demo.filename Demo.fs
  = Ok (Demo.out, @_save_data Demo.E Demo.out Demo.filename Demo.fs)
  ∧ (∀ l r, (l, r) ∈ Demo.out →
       ∃ u, url r = Val u
            ∧ l = Uid (MD5.hexdigest (MD5.md5 (Py.encode u)))
            ∧ is_hex32 (MD5.hexdigest (MD5.md5 (Py.encode u)))).
Proof.
  assert (Hrun : @main Demo.E Demo.filename Demo.fs
                 = Ok (Demo.out, @_save_data Demo.E Demo.out Demo.filename Demo.fs))
    by (vm_compute; reflexivity).
  split; [exact Hrun|].
  exact (proj1 (@C10_uid_is_md5_of_url Demo.E _ _ _ _ Hrun)).
Defined.

(** C7 as stated fails: the url of the third sample record has no network
    location, the run returns, and the row is in the output with the
    empty string as its host. *)
Lemma C7_counterexample :
  Urllib.netloc (fun _ => true) "no-host" = Ok EmptyString
  ∧ Reference.returned (@main Demo.E Demo.filename Demo.fs) = Ok Demo.out
  ∧ Demo.out !! 1%nat
    = Some (Uid "963d1f37ad49197c11ce3486781333de",
            mkRow (Val "no-host") (Val "The Title") (Val "x")
                  (Some (Val "n")) (Some (Val EmptyString))
                  (Some (Val 1%nat)) (Some (Val 1%nat))).
Proof. repeat split; vm_compute; reflexivity. Qed.

(** ** Further properties of the cleaning steps *)

(** *** The source id of a file *)

Lemma split_chars_head (sep : ascii) (cs : list ascii) :
  ∃ p ps, Py.split_chars sep cs = p :: ps
          ∧ Forall (fun c => Py.eqc c sep = false) p
          ∧ ((cs = p ∧ ps = []) ∨ ∃ rest, cs = p ++ sep :: rest).
Proof.
  induction cs as [|c cs (p & ps & Hsplit & Hp & Hcs)]; simpl.
  - exists [], []. repeat split; [constructor|by left].
  - destruct (Py.eqc c sep) eqn:Hc.
    + exists [], (Py.split_chars sep cs). repeat split; [constructor|].
      right. exists cs. apply Ascii.eqb_eq in Hc. by subst.
    + rewrite Hsplit. exists (c :: p), ps. repeat split; [by constructor|].
      destruct Hcs as [[-> ->]|[rest ->]]; [by left|].
      right. by exists rest.
Qed.

(** X1. The source id taken from a file name holds no underscore and is
    the file name up to its first underscore: the whole name when it has
    none. *)
Theorem X1_newspaper_uid_is_text_before_first_underscore (filename : string) :
  Forall (fun c => Py.eqc c "_" = false)
         (Py.chars (_extract_newspaper_uid filename))
  ∧ (_extract_newspaper_uid filename = filename
     ∨ ∃ rest, Py.chars filename
               = Py.chars (_extract_newspaper_uid filename) ++ "_"%char :: rest).
Proof.
  unfold _extract_newspaper_uid, Py.split.
  destruct (split_chars_head "_" (Py.chars filename))
    as (p & ps & -> & Hp & Hcs).
  simpl. rewrite chars_str. split; [done|].
  destruct Hcs as [[Hcs _]|[rest Hcs]].
  - left. rewrite <- Hcs. apply string_of_list_ascii_of_string.
  - right. by exists rest.
Qed.

(** *** The host of a url *)

Lemma splitnetloc_clean (cs : list ascii) :
  Forall (fun c => Py.char_in c "/?#" = false) (Urllib.splitnetloc cs).
Proof.
  induction cs as [|c cs IH]; simpl; [constructor|].
  destruct (Py.char_in c "/?#") eqn:Hc; [constructor|]. by constructor.
Qed.

(** X2. The host of a url never holds a slash, a question mark or a
    hash. *)
Theorem X2_host_has_no_path_query_or_fragment (check : string → bool)
    (u h : string) :
  Urllib.netloc check u = Ok h →
  Forall (fun c => Py.char_in c "/?#" = false) (Py.chars h).
Proof.
  unfold Urllib.netloc.
  destruct (Urllib.strip_scheme _) as [|c1 [|c2 rest]];
    try (intros [= <-]; constructor).
  destruct (Py.eqc c1 "/" && Py.eqc c2 "/"); [|intros [= <-]; constructor].
  destruct (xorb _ _); [discriminate|].
  destruct (_ && _); [discriminate|].
  intros [= <-]. rewrite chars_str. apply splitnetloc_clean.
Qed.

Lemma lstrip_Forall (P : ascii → Prop) (p : ascii → bool) (cs : list ascii) :
  Forall P cs → Forall P (Urllib.lstrip p cs).
Proof.
  induction 1 as [|c cs Hc Hcs IH]; simpl; [constructor|].
  destruct (p c); [done|by constructor].
Qed.

Lemma filter_Forall (P : ascii → Prop) (p : ascii → bool) (cs : list ascii) :
  Forall P cs → Forall P (List.filter p cs).
Proof.
  induction 1 as [|c cs Hc Hcs IH]; simpl; [constructor|].
  destruct (p c); [by constructor|done].
Qed.

Lemma partition_after_Forall (P : ascii → Prop) (sep : ascii)
    (cs : list ascii) :
  Forall P cs → Forall P (snd (Urllib.partition sep cs)).
Proof.
  induction 1 as [|c cs Hc Hcs IH]; simpl; [constructor|].
  destruct (Py.eqc c sep); [done|].
  by destruct (Urllib.partition sep cs) as [[b found] a].
Qed.

Lemma strip_scheme_Forall (P : ascii → Prop) (cs : list ascii) :
  Forall P cs → Forall P (Urllib.strip_scheme cs).
Proof.
  intros Hcs. unfold Urllib.strip_scheme.
  pose proof (partition_after_Forall P ":" cs Hcs) as Hafter.
  destruct (Urllib.partition ":" cs) as [[before found] rest].
  destruct before as [|c0 before]; [done|].
  by destruct (_ && _).
Qed.

(** X3. A url without any slash has the empty string as its host, and
    parsing it raises nothing. *)
Theorem X3_url_without_slash_has_empty_host (check : string → bool)
    (u : string) :
  Forall (fun c => Py.eqc c "/" = false) (Py.chars u) →
  Urllib.netloc check u = Ok EmptyString.
Proof.
  intros Hu. unfold Urllib.netloc.
  assert (Hs : Forall (fun c => Py.eqc c "/" = false)
                 (Urllib.strip_scheme
                    (List.filter (fun c => negb (Urllib.unsafe_byte c))
                       (Urllib.lstrip Urllib.c0_or_space (Py.chars u))))).
  { by apply strip_scheme_Forall, filter_Forall, lstrip_Forall. }
  destruct (Urllib.strip_scheme _) as [|c1 [|c2 rest]]; [done|done|].
  inversion Hs as [|? ? Hc1 _]; subst. by rewrite Hc1.
Qed.

Lemma splitnetloc_app (host tail : list ascii) :
  Forall (fun c => Py.char_in c "/?#" = false) host →
  (tail = [] ∨ ∃ c rest, tail = c :: rest ∧ Py.char_in c "/?#" = true) →
  Urllib.splitnetloc (host ++ tail) = host.
Proof.
  intros Hhost Htail. induction Hhost as [|c host Hc Hhost IH]; simpl.
  - destruct Htail as [->|(c & rest & -> & Hc)]; [done|]. simpl. by rewrite Hc.
  - by rewrite Hc, IH.
Qed.

Lemma filter_host (host tail : list ascii) :
  Forall (fun c => Urllib.unsafe_byte c = false) host →
  List.filter (fun c => negb (Urllib.unsafe_byte c)) (host ++ tail)
  = host ++ List.filter (fun c => negb (Urllib.unsafe_byte c)) tail.
Proof.
  induction 1 as [|c host Hc Hhost IH]; simpl; [done|].
  by rewrite Hc, IH.
Qed.

Lemma filter_tail_delimiter (tail : list ascii) :
  (tail = [] ∨ ∃ c rest, tail = c :: rest ∧ Py.char_in c "/?#" = true) →
  List.filter (fun c => negb (Urllib.unsafe_byte c)) tail = []
  ∨ ∃ c rest, List.filter (fun c => negb (Urllib.unsafe_byte c)) tail = c :: rest
              ∧ Py.char_in c "/?#" = true.
Proof.
  intros [->|(c & rest & -> & Hc)]; [by left|].
  right. exists c. simpl.
  assert (Hsafe : Urllib.unsafe_byte c = false).
  { unfold Py.char_in in Hc. simpl in Hc.
    rewrite !orb_true_iff in Hc.
    destruct Hc as [Hc|[Hc|[Hc|Hc]]]; [| | |done];
      apply Ascii.eqb_eq in Hc; by subst c. }
  rewrite Hsafe. simpl. by eexists.
Qed.

Lemma no_bracket (c0 : ascii) (host : list ascii) :
  Forall (fun c => Py.eqc c c0 = false) host → existsb (Py.eqc c0) host = false.
Proof.
  induction 1 as [|c host Hc Hhost IH]; simpl; [done|].
  rewrite IH, orb_false_r. unfold Py.eqc in *.
  rewrite Ascii.eqb_sym. exact Hc.
Qed.

(** The network location of an http or https url is the text between the
    two slashes and the first slash, question mark or hash after them,
    when that text holds no bracket, tab or line break. *)
Lemma netloc_of_http_url (check : string → bool) (host tail : list ascii) :
  Forall (fun c => Py.char_in c "/?#" = false) host →
  Forall (fun c => Urllib.unsafe_byte c = false) host →
  Forall (fun c => Py.eqc c "[" = false) host →
  Forall (fun c => Py.eqc c "]" = false) host →
  (tail = [] ∨ ∃ c rest, tail = c :: rest ∧ Py.char_in c "/?#" = true) →
  Urllib.netloc check (Py.str (Py.chars "https://" ++ host ++ tail))
  = Ok (Py.str host)
  ∧ Urllib.netloc check (Py.str (Py.chars "http://" ++ host ++ tail))
    = Ok (Py.str host).
Proof.
  intros Hdelim Hsafe Hopen Hclose Htail.
  apply filter_tail_delimiter in Htail.
  pose proof (splitnetloc_app host _ Hdelim Htail) as Hsplit.
  pose proof (filter_host host tail Hsafe) as Hfilter.
  pose proof (no_bracket "[" host Hopen) as Hno_open.
  pose proof (no_bracket "]" host Hclose) as Hno_close.
  assert (Hhttps : ∀ X,
    Urllib.strip_scheme
      (List.filter (fun c => negb (Urllib.unsafe_byte c))
         (Urllib.lstrip Urllib.c0_or_space (Py.chars "https://" ++ X)))
    = "/"%char :: "/"%char :: List.filter (fun c => negb (Urllib.unsafe_byte c)) X)
    by reflexivity.
  assert (Hhttp : ∀ X,
    Urllib.strip_scheme
      (List.filter (fun c => negb (Urllib.unsafe_byte c))
         (Urllib.lstrip Urllib.c0_or_space (Py.chars "http://" ++ X)))
    = "/"%char :: "/"%char :: List.filter (fun c => negb (Urllib.unsafe_byte c)) X)
    by reflexivity.
  split; unfold Urllib.netloc; rewrite chars_str.
  - rewrite Hhttps, Hfilter. cbn [Py.eqc Ascii.eqb Bool.eqb andb].
    by rewrite Hsplit, Hno_open, Hno_close.
  - rewrite Hhttp, Hfilter. cbn [Py.eqc Ascii.eqb Bool.eqb andb].
    by rewrite Hsplit, Hno_open, Hno_close.
Qed.

(** *** The steps on whole tables *)

Lemma mapM_raises {A B : Type} (f : A → result B) (e0 : exn) (xs : list A)
    (x : A) :
  (∀ y e, f y = Raise e → e = e0) →
  x ∈ xs → f x = Raise e0 → mapM f xs = Raise e0.
Proof.
  intros Honly Hin Hx. induction xs as [|y xs IH]; [by apply elem_of_nil in Hin|].
  simpl. apply elem_of_cons in Hin as [<-|Hin].
  - by rewrite Hx.
  - destruct (f y) as [b|e] eqn:Hy; simpl.
    + by rewrite IH.
    + by rewrite (Honly y e Hy).
Qed.

Section Tables.

Context `{External}.

(** X4. Stage 2 gives a row with an http or https url, as its host, the
    text between the two slashes and the first slash, question mark or
    hash after them, when that text holds no bracket, tab or line break;
    nothing else in the row changes. *)
Theorem X4_host_of_http_url (df df' : DataFrame) (i : nat) (l : label)
    (r : Row) (scheme authority tail : list ascii) :
  _extract_host df = Ok df' →
  df !! i = Some (l, r) →
  scheme = Py.chars "https://" ∨ scheme = Py.chars "http://" →
  url r = Val (Py.str (scheme ++ authority ++ tail)) →
  Forall (fun c => Py.char_in c "/?#" = false) authority →
  Forall (fun c => Urllib.unsafe_byte c = false) authority →
  Forall (fun c => Py.eqc c "[" = false) authority →
  Forall (fun c => Py.eqc c "]" = false) authority →
  (tail = [] ∨ ∃ c rest, tail = c :: rest ∧ Py.char_in c "/?#" = true) →
  df' !! i = Some (l, set_host (Val (Py.str authority)) r).
Proof.
  intros Hrun Hi Hscheme Hurl Hdelim Hsafe Hopen Hclose Htail.
  rewrite extract_host_rows in Hrun. apply mapM_Forall2 in Hrun.
  destruct (Forall2_lookup_l _ _ _ _ _ Hrun Hi) as (lr' & Hi' & Hstep).
  unfold host_step, urlparse_netloc in Hstep. simpl in Hstep.
  rewrite Hurl in Hstep.
  destruct (netloc_of_http_url check_bracketed_host authority tail
              Hdelim Hsafe Hopen Hclose Htail) as [Hhttps Hhttp].
  destruct Hscheme as [->| ->].
  - rewrite Hhttps in Hstep. simpl in Hstep. injection Hstep as <-. exact Hi'.
  - rewrite Hhttp in Hstep. simpl in Hstep. injection Hstep as <-. exact Hi'.
Qed.

(** X5. Extracting the host returns exactly when every url is present and
    parses; it then stores each row's host and changes nothing else, and
    no row is ever left with a missing host. *)
Theorem X5_extract_host_returns_iff_every_url_parses (df df' : DataFrame) :
  _extract_host df = Ok df'
  ↔ Forall2 (fun lr lr' =>
               ∃ u h, url (snd lr) = Val u
                      ∧ Urllib.netloc check_bracketed_host u = Ok h
                      ∧ lr' = (fst lr, set_host (Val h) (snd lr)))
            df df'.
Proof.
  rewrite extract_host_rows.
  split; intros Hall; [apply mapM_Forall2 in Hall|apply mapM_Forall2];
    (eapply Forall2_impl; [exact Hall|]); intros [l r] lr'; simpl.
  - unfold host_step, urlparse_netloc. simpl.
    destruct (url r) as [|u]; simpl; [discriminate|].
    destruct (Urllib.netloc _ u) as [h|e] eqn:Hh; simpl; [|discriminate].
    intros [= <-]. by exists u, h.
  - intros (u & h & Hu & Hh & ->). unfold host_step, urlparse_netloc. simpl.
    by rewrite Hu, Hh.
Qed.

(** X6. When the title repair returns, no title is missing, a row that
    had a title is unchanged, and in the other rows only the title has
    changed; labels and order are kept. *)
Theorem X6_title_repair_changes_only_missing_titles (df df' : DataFrame) :
  _fill_missing_titles df = Ok df' →
  Forall2 (fun lr lr' =>
             fst lr' = fst lr
             ∧ present (title (snd lr'))
             ∧ snd lr' = set_title (title (snd lr')) (snd lr)
             ∧ (∀ t, title (snd lr) = Val t → lr' = lr))
          df df'.
Proof.
  intros Hfill. apply fill_missing_titles_steps, mapM_Forall2 in Hfill.
  eapply Forall2_impl; [exact Hfill|]. intros [l r] lr'. simpl.
  unfold title_step. simpl. destruct (title r) as [|t] eqn:Ht; simpl.
  - intros Hb. inv_bind Hb. injection Hb as <-. simpl.
    split; [done|]. split; [by eexists|]. split; [done|]. intros t' [=].
  - intros [= <-]. simpl. rewrite Ht.
    split; [done|]. split; [by exists t|]. split; [|done].
    destruct r. simpl in *. by subst.
Qed.

(** X7. The title given to a row without title is the text after the last
    slash of its url, the whole url when it has no slash, with each hyphen
    replaced by a space. *)
Theorem X7_repaired_title_is_last_segment_with_spaces (df df' : DataFrame)
    (i : nat) (l : label) (r : Row) (pre segment : list ascii) :
  _fill_missing_titles df = Ok df' →
  df !! i = Some (l, r) →
  title r = NaN →
  url r = Val (Py.str (pre ++ segment)) →
  (pre = [] ∨ ∃ pre', pre = pre' ++ ["/"%char]) →
  segment ≠ [] →
  Forall (fun c => Py.eqc c "/" = false) segment →
  ∃ r', df' !! i = Some (l, r')
        ∧ title r' = Val (Py.replace_char "-" " " (Py.str segment)).
Proof.
  intros Hfill Hi Htitle Hurl Hpre Hne Hseg.
  apply fill_missing_titles_steps, mapM_Forall2 in Hfill.
  destruct (Forall2_lookup_l _ _ _ _ _ Hfill Hi) as ([l' r'] & Hi' & Hstep).
  unfold title_step in Hstep. simpl in Hstep.
  rewrite Htitle, Hurl in Hstep. simpl in Hstep. rewrite chars_str in Hstep.
  assert (Hsearch : Re.search (pre ++ segment) = Some segment).
  { destruct (search_last_segment [] segment Hne Hseg) as [_ Hwhole].
    destruct Hpre as [->|[pre' ->]]; [done|].
    rewrite <- app_assoc. simpl.
    by destruct (search_last_segment pre' segment Hne Hseg) as [-> _]. }
  rewrite Hsearch in Hstep. simpl in Hstep. injection Hstep as <- <-.
  exists (set_title (Val (Py.join " " (Py.split "-" (Py.str segment)))) r).
  split; [done|]. simpl. by rewrite join_split_hyphens.
Qed.

(** X8. Assigning the uids returns exactly on a table with at least one
    row and no missing url; it replaces each label by the uid of the
    row's url and leaves the rows as they are. *)
Theorem X8_uids_returned_iff_rows_and_urls (df df' : DataFrame) :
  _generate_uids_for_rows df = Ok df'
  ↔ df ≠ []
    ∧ Forall2 (fun lr lr' =>
                 ∃ u, url (snd lr) = Val u ∧ lr' = (Uid (assign_id u), snd lr))
              df df'.
Proof.
  split.
  - intros Hrun. destruct (decide (df = [])) as [->|Hne]; [discriminate|].
    split; [done|]. rewrite generate_uids_rows in Hrun by done.
    apply mapM_Forall2 in Hrun.
    eapply Forall2_impl; [exact Hrun|]. intros [l r] lr'.
    unfold uid_step, url_hash. simpl.
    destruct (url r) as [|u]; simpl; [discriminate|].
    intros [= <-]. by exists u.
  - intros [Hne Hall]. rewrite generate_uids_rows by done.
    apply mapM_Forall2.
    eapply Forall2_impl; [exact Hall|]. intros [l r] lr' (u & Hu & ->).
    simpl in Hu. unfold uid_step, url_hash. simpl. by rewrite Hu.
Qed.

End Tables.

Lemma normalize_body_no_newline (b : string) :
  Forall (fun c => Py.eqc c Re.newline = false) (Py.chars (normalize_body b)).
Proof.
  unfold normalize_body. rewrite chars_str.
  induction (Py.chars b) as [|c cs IH]; simpl; [constructor|].
  constructor; [|done]. unfold replace_newline.
  by destruct (Py.eqc c Re.newline) eqn:Hc.
Qed.

Lemma normalize_body_length (b : string) :
  String.length (normalize_body b) = String.length b.
Proof.
  unfold normalize_body. rewrite str_length, length_map.
  rewrite <- (string_of_list_ascii_of_string b) at 2.
  fold (Py.chars b). fold (Py.str (Py.chars b)). by rewrite str_length.
Qed.

Lemma normalize_body_fixed (b : string) :
  Forall (fun c => Py.eqc c Re.newline = false) (Py.chars b) →
  normalize_body b = b.
Proof.
  intros Hb. unfold normalize_body.
  rewrite <- (string_of_list_ascii_of_string b) at 2.
  fold (Py.chars b). fold (Py.str (Py.chars b)). f_equal.
  induction Hb as [|c cs Hc Hcs IH]; simpl; [done|].
  unfold replace_newline at 1. by rewrite Hc, IH.
Qed.

Lemma remove_new_lines_returns (df df' : DataFrame) :
  _remove_new_lines_from_body df = Ok df'
  ↔ Forall2 (fun lr lr' =>
               ∃ b b', body (snd lr) = Val b
                       ∧ lr' = (fst lr, set_body (Val b') (snd lr))
                       ∧ b' = Py.str (map replace_newline (Py.chars b))
                       ∧ Forall (fun c => Py.eqc c Re.newline = false) (Py.chars b')
                       ∧ String.length b' = String.length b)
            df df'.
Proof.
  rewrite remove_new_lines_rows.
  split; intros Hall; [apply mapM_Forall2 in Hall|apply mapM_Forall2];
    (eapply Forall2_impl; [exact Hall|]); intros [l r] lr'; simpl.
  - unfold body_step, letters_of. simpl.
    destruct (body r) as [|b]; simpl; [discriminate|].
    intros [= <-]. exists b, (normalize_body b).
    repeat split; [apply normalize_body_no_newline|apply normalize_body_length].
  - intros (b & b' & Hb & -> & -> & _). unfold body_step, letters_of. simpl.
    by rewrite Hb.
Qed.

(** X9. Removing the new lines returns exactly when no body is missing;
    each body then has every newline replaced by a space, so it holds no
    newline and has the length it had, and nothing else changes. *)
Theorem X9_bodies_lose_their_newlines (df df' : DataFrame) :
  _remove_new_lines_from_body df = Ok df'
  ↔ Forall2 (fun lr lr' =>
               ∃ b b', body (snd lr) = Val b
                       ∧ lr' = (fst lr, set_body (Val b') (snd lr))
                       ∧ b' = Py.str (map replace_newline (Py.chars b))
                       ∧ Forall (fun c => Py.eqc c Re.newline = false) (Py.chars b')
                       ∧ String.length b' = String.length b)
            df df'.
Proof. apply remove_new_lines_returns. Qed.

(** X10. Removing the new lines a second time changes nothing. *)
Theorem X10_removing_newlines_twice_is_once (df df' : DataFrame) :
  _remove_new_lines_from_body df = Ok df' →
  _remove_new_lines_from_body df' = Ok df'.
Proof.
  intros Hrun. apply remove_new_lines_returns in Hrun.
  rewrite remove_new_lines_rows. apply mapM_Forall2.
  induction Hrun as [|[l r] lr' df df' (b & b' & Hb & -> & Hb' & Hnl & _) _ IH];
    constructor; [|done].
  unfold body_step, letters_of. simpl.
  fold (normalize_body b'). rewrite (normalize_body_fixed b' Hnl).
  by destruct r.
Qed.

(** X11. A table with a missing body makes the removal of new lines raise
    [TypeError], whatever the other rows hold. *)
Theorem X11_missing_body_raises_type_error (df : DataFrame) (l : label)
    (r : Row) :
  (l, r) ∈ df → body r = NaN →
  _remove_new_lines_from_body df = Raise TypeError.
Proof.
  intros Hin Hbody. rewrite remove_new_lines_rows.
  apply (mapM_raises body_step TypeError df (l, r)); [|done|].
  - intros [l' r'] e. unfold body_step, letters_of. simpl.
    destruct (body r'); simpl; [by intros [= <-]|discriminate].
  - unfold body_step, letters_of. simpl. by rewrite Hbody.
Qed.

(** *** Counting tokens on whole tables *)

Lemma title_count_step_has_na `{External} (lr : label * Row) :
  Pandas.row_has_na (snd (title_count_step lr)) = Pandas.row_has_na (snd lr).
Proof.
  unfold title_count_step, tokens_cell. simpl.
  destruct (Pandas.row_has_na (snd lr)) eqn:Hna.
  - unfold Pandas.row_has_na in *. simpl.
    rewrite !orb_true_iff in Hna. rewrite !orb_true_iff.
    destruct Hna as [[[[[[Hu|Ht]|Hb]|Hn]|Hh]|Hnt]|Hnb]; tauto.
  - unfold Pandas.row_has_na in *. simpl.
    rewrite !orb_false_iff in Hna. rewrite !orb_false_iff. tauto.
Qed.

Lemma dropna_title_count `{External} (df : DataFrame) :
  Pandas.dropna (map title_count_step df)
  = map title_count_step (Pandas.dropna df).
Proof.
  unfold Pandas.dropna. induction df as [|lr df IH]; [done|].
  cbn [map List.filter]. rewrite title_count_step_has_na.
  destruct (negb (Pandas.row_has_na (snd lr))); cbn [map]; by rewrite IH.
Qed.

Section Tokens.

Context `{External}.

(** X12. Stage 7 leaves out every row with a missing value in any column:
    on a table with distinct labels and at least one complete row it
    raises nothing, each complete row receives the count of its body and
    every other row a missing count. *)
Theorem X12_tokenize_body_skips_rows_with_any_missing_value (df : DataFrame) :
  NoDup (Pandas.index df) →
  Pandas.dropna df ≠ [] →
  _tokenize_body df
  = Ok (map (fun lr =>
               (fst lr,
                set_n_tokens_body
                  (if Pandas.row_has_na (snd lr) then NaN
                   else Val (count_cell (body (snd lr))))
                  (snd lr)))
            df).
Proof.
  intros Hnd Hne. unfold _tokenize_body.
  rewrite (tokenize_store set_n_tokens_body body); try done.
  - apply row_has_na_body.
  - by left.
Qed.

(** X13. A row left out at stage 6 is left out at stage 7 as well: after
    both stages a row with a missing value has both counts missing, and a
    complete row has the counts of its title and of its body. *)
Theorem X13_rows_left_out_of_one_count_miss_both (df : DataFrame) :
  NoDup (Pandas.index df) →
  Pandas.dropna df ≠ [] →
  bind (_tokenize_title df) _tokenize_body
  = Ok (map (fun lr =>
               (fst lr,
                if Pandas.row_has_na (snd lr)
                then set_n_tokens_body NaN (set_n_tokens_title NaN (snd lr))
                else set_n_tokens_body (Val (count_cell (body (snd lr))))
                       (set_n_tokens_title (Val (count_cell (title (snd lr))))
                          (snd lr))))
            df).
Proof.
  intros Hnd Hne. unfold _tokenize_title at 1.
  rewrite (tokenize_store set_n_tokens_title title);
    [|apply row_has_na_title|by left|done].
  simpl. change (map _ df) with (map title_count_step df) at 1.
  unfold _tokenize_body.
  rewrite (tokenize_store set_n_tokens_body body).
  - f_equal. rewrite map_map. apply map_ext. intros lr.
    unfold tokens_cell. rewrite title_count_step_has_na.
    unfold title_count_step, tokens_cell. simpl.
    by destruct (Pandas.row_has_na (snd lr)).
  - apply row_has_na_body.
  - left. unfold Pandas.index. rewrite map_map. exact Hnd.
  - rewrite dropna_title_count. by destruct (Pandas.dropna df).
Qed.

(** X14. On a table in which every row has a missing value, and so on
    the table without rows, both counting stages raise [ValueError]. *)
Theorem X14_counting_raises_when_no_row_is_complete (df : DataFrame) :
  Forall (fun lr => Pandas.row_has_na (snd lr) = true) df →
  _tokenize_title df = Raise ValueError
  ∧ _tokenize_body df = Raise ValueError.
Proof.
  intros Hall.
  assert (Hnone : Pandas.dropna df = []).
  { unfold Pandas.dropna. induction Hall as [|lr df Hlr _ IH]; simpl; [done|].
    by rewrite Hlr. }
  unfold _tokenize_title, _tokenize_body.
  by rewrite !tokenize_column_none.
Qed.

(** X15. When a row is left out and two of the remaining rows share a
    label, storing the title counts raises [ValueError]: the counts
    cannot be aligned on a repeated label. *)
Theorem X15_counts_cannot_align_on_repeated_labels (df : DataFrame) :
  ¬ NoDup (Pandas.index (Pandas.dropna df)) →
  Pandas.dropna df ≠ df →
  _tokenize_title df = Raise ValueError.
Proof.
  intros Hdup Hdropped. unfold _tokenize_title.
  rewrite tokenize_column_Ok; [|apply row_has_na_title|].
  - simpl. unfold Pandas.reindex_for_setitem.
    assert (Hix : Pandas.index
                    (map (fun lr : label * Row =>
                            (fst lr, count_cell (title (snd lr))))
                       (Pandas.dropna df))
                  = Pandas.index (Pandas.dropna df)).
    { unfold Pandas.index. by rewrite map_map. }
    rewrite Hix.
    destruct (decide _) as [Heq|_].
    + by apply dropna_same_index in Heq.
    + by destruct (decide (NoDup _)).
  - intros Hnil. apply Hdup. rewrite Hnil. constructor.
Qed.

End Tokens.

(** *** Removing duplicates and incomplete rows *)

Lemma drop_duplicates_from_fixed (col : Row → cell string)
    (seen : list (cell string)) (df : DataFrame) :
  NoDup (map (key_of col) df) →
  (∀ lr, lr ∈ df → key_of col lr ∉ seen) →
  Pandas.drop_duplicates_from seen col df = df.
Proof.
  revert seen. induction df as [|a df IH]; intros seen Hnd Hfresh; simpl; [done|].
  simpl in Hnd. apply NoDup_cons in Hnd as [Ha Hnd].
  fold (key_of col a).
  rewrite bool_decide_eq_false_2 by (apply Hfresh; left).
  f_equal. apply IH; [done|].
  intros lr Hlr. rewrite not_elem_of_cons. split.
  - intros Heq. apply Ha. rewrite <- Heq.
    apply list_elem_of_fmap. by exists lr.
  - apply Hfresh. by right.
Qed.

(** X16. Deduplicating a second time on the same column changes
    nothing. *)
Theorem X16_deduplicating_twice_is_once (df : DataFrame)
    (column_name : Row → cell string) :
  _remove_duplicate_entries (_remove_duplicate_entries df column_name) column_name
  = _remove_duplicate_entries df column_name.
Proof.
  unfold _remove_duplicate_entries, Pandas.drop_duplicates.
  apply drop_duplicates_from_fixed.
  - apply drop_duplicates_from_NoDup.
  - intros lr _. apply not_elem_of_nil.
Qed.

Lemma dedup_then_dropna_sublist (col : Row → cell string)
    (seen seen' : list (cell string)) (df : DataFrame) :
  seen' ⊆ seen →
  sublist (Pandas.dropna (Pandas.drop_duplicates_from seen col df))
          (Pandas.drop_duplicates_from seen' col (Pandas.dropna df)).
Proof.
  revert seen seen'. induction df as [|a df IH]; intros seen seen' Hsub; simpl.
  - constructor.
  - destruct (bool_decide (col (snd a) ∈ seen)) eqn:Hseen.
    + apply bool_decide_eq_true in Hseen.
      destruct (negb (Pandas.row_has_na (snd a))); simpl; [|by apply IH].
      destruct (bool_decide (col (snd a) ∈ seen')); [by apply IH|].
      apply sublist_cons. apply IH.
      intros x Hx. apply elem_of_cons in Hx as [->|Hx]; [done|by apply Hsub].
    + apply bool_decide_eq_false in Hseen. simpl.
      destruct (negb (Pandas.row_has_na (snd a))) eqn:Hna; simpl.
      * rewrite bool_decide_eq_false_2
          by (intros Hin; apply Hseen; by apply Hsub).
        apply sublist_skip. apply IH.
        intros x Hx. apply elem_of_cons in Hx as [->|Hx];
          [left|right; by apply Hsub].
      * apply IH. intros x Hx. right. by apply Hsub.
Qed.

(** X17. Dropping incomplete rows after the deduplication keeps no row
    that dropping them before it would not keep: the result is a
    sub-sequence of the table deduplicated after the filter. *)
Theorem X17_filter_after_deduplication_keeps_less (df : DataFrame)
    (column_name : Row → cell string) :
  sublist
    (_drop_rows_with_missing_values (_remove_duplicate_entries df column_name))
    (_remove_duplicate_entries (_drop_rows_with_missing_values df) column_name).
Proof.
  unfold _drop_rows_with_missing_values, _remove_duplicate_entries,
    Pandas.drop_duplicates.
  by apply dedup_then_dropna_sublist.
Qed.

(** X18. The final filter keeps exactly the rows without missing value,
    in their order, and filtering a second time changes nothing. *)
Theorem X18_final_filter_keeps_complete_rows (df : DataFrame) :
  (∀ lr, lr ∈ _drop_rows_with_missing_values df
         ↔ lr ∈ df ∧ Pandas.row_has_na (snd lr) = false)
  ∧ sublist (_drop_rows_with_missing_values df) df
  ∧ _drop_rows_with_missing_values (_drop_rows_with_missing_values df)
    = _drop_rows_with_missing_values df.
Proof.
  unfold _drop_rows_with_missing_values. split; [|split].
  - intros lr. apply dropna_In.
  - unfold Pandas.dropna. induction df as [|a df IH]; simpl; [done|].
    destruct (negb _); by constructor.
  - apply dropna_complete. apply Forall_forall. intros lr Hlr.
    by apply dropna_In in Hlr as [_ Hna].
Qed.

(** ** Further properties of a whole run *)

Lemma drop_duplicates_nonempty (col : Row → cell string) (df : DataFrame) :
  df ≠ [] → Pandas.drop_duplicates col df ≠ [].
Proof.
  destruct df as [|a df]; [done|]. intros _.
  unfold Pandas.drop_duplicates. simpl. done.
Qed.

Section Runs.

Context `{External}.

(** X19. Whenever a run returns, the file exists and parses, holds at
    least one record, and every record has a url that parses, a body, and
    a title or a url with a last segment; the table returned is the
    cleaned records in the order of the file, without the rows whose
    title an earlier row has, and it is the table written to the clean
    file. *)
Theorem X19_returned_table_is_the_deduplicated_cleaned_records
    (filename : string) (fs fs' : filesystem) (out : DataFrame) :
  main filename fs = Ok (out, fs') →
  ∃ contents records rows,
    fs !! filename = Some contents
    ∧ read_csv contents = Ok records
    ∧ records ≠ []
    ∧ Forall2 (fun r lr =>
                 clean_record (_extract_newspaper_uid filename) r = Ok lr)
              records rows
    ∧ out = _remove_duplicate_entries rows title
    ∧ fs' = <[String.append "clean_" filename := to_csv out]> fs.
Proof.
  intros Hmain. apply main_Ok in Hmain
    as (contents & records & rows & Hf & Hr & Hne & Hrows & -> & ->).
  exists contents, records, rows. repeat split; try done.
  by apply mapM_Forall2.
Qed.

(** X20. In a run the final filter removes nothing: the table returned is
    already the result of the first eight stages. *)
Theorem X20_final_filter_removes_nothing_in_a_run (filename : string)
    (fs fs' : filesystem) (out : DataFrame) :
  main filename fs = Ok (out, fs') →
  ∃ df, _read_data filename fs = Ok df
        ∧ run_stages (take 8 (spec_stages (_extract_newspaper_uid filename))) df
          = Ok out.
Proof.
  intros Hmain.
  pose proof Hmain as Hspec. apply main_Ok in Hspec
    as (contents & records & rows & Hfile & Hrecords & _ & Hrows & _ & _).
  rewrite main_unfold in Hmain.
  apply bind_Ok in Hmain as (df0 & Hread & Hmain).
  exists df0. split; [done|].
  apply bind_Ok in Hmain as (df7 & Hstages & Hout).
  simpl in Hout. injection Hout as Hout _.
  apply bind_Ok in Hstages as (df5 & H15 & H67).
  unfold stages_1_to_5 in H15.
  apply bind_Ok in H15 as (df2 & H2 & H15).
  apply bind_Ok in H15 as (df3 & H3 & H15).
  apply bind_Ok in H15 as (df4 & H4 & H5).
  unfold stages_6_to_7 in H67.
  apply bind_Ok in H67 as (df6 & H6 & H7).
  unfold run_stages. simpl.
  rewrite H2. simpl. rewrite H3. simpl. rewrite H4. simpl.
  rewrite H5. simpl. rewrite H6. simpl. rewrite H7. simpl.
  f_equal. rewrite <- Hout. unfold _drop_rows_with_missing_values.
  symmetry. apply dropna_complete.
  assert (Hdf7 : df7 = rows).
  { pose proof Hread as Hread'. unfold _read_data in Hread'.
    rewrite Hfile in Hread'. simpl in Hread'. rewrite Hrecords in Hread'.
    simpl in Hread'. injection Hread' as <-.
    assert (Hst : bind (stages_1_to_5 (_extract_newspaper_uid filename)
                          (frame_of_records records)) stages_6_to_7 = Ok df7).
    { unfold stages_1_to_5, stages_6_to_7.
      rewrite H2. simpl. rewrite H3. simpl. rewrite H4. simpl.
      rewrite H5. simpl. by rewrite H6. }
    apply stages_Ok in Hst as [_ Hst]; [|apply frame_of_records_raw].
    rewrite frame_of_records_steps, Hrows in Hst. by injection Hst. }
  subst df7.
  assert (Hall : Forall (fun lr => Pandas.row_has_na (snd lr) = false) rows).
  { eapply (mapM_Forall (fun _ => True)); [|by apply Forall_true|exact Hrows].
    intros r lr _. apply clean_record_complete. }
  rewrite Forall_forall in Hall |- *. intros lr Hlr. apply Hall.
  eapply elem_of_sublist; [exact Hlr|apply drop_duplicates_from_sublist].
Qed.

(** X21. The table a run returns has at least one row, at most as many
    rows as the file has records, and no title twice. *)
Theorem X21_output_is_nonempty_bounded_and_without_repeated_title
    (filename : string) (fs fs' : filesystem) (out : DataFrame)
    (contents : csv) (records : list RawRow) :
  main filename fs = Ok (out, fs') →
  fs !! filename = Some contents →
  read_csv contents = Ok records →
  out ≠ []
  ∧ (length out ≤ length records)%nat
  ∧ NoDup (map (fun lr => title (snd lr)) out).
Proof.
  intros Hmain Hfile Hread.
  apply main_Ok in Hmain
    as (contents' & records' & rows & Hfile' & Hread' & Hne & Hrows & -> & _).
  rewrite Hfile in Hfile'. injection Hfile' as <-.
  rewrite Hread in Hread'. injection Hread' as <-.
  pose proof (mapM_length _ _ _ Hrows) as Hlen.
  split; [|split].
  - apply drop_duplicates_nonempty. by apply (mapM_nonempty _ _ _ Hrows).
  - rewrite <- Hlen. apply sublist_length, drop_duplicates_from_sublist.
  - apply (drop_duplicates_from_NoDup title).
Qed.

(** X22. Every row a run returns holds the values derived from its own
    url, title and body: the host of the url, the source id of the file
    name, the token counts of the title and of the body, and a body
    without newline. *)
Theorem X22_output_columns_are_derived_from_the_row (filename : string)
    (fs fs' : filesystem) (out : DataFrame) (l : label) (r : Row) :
  main filename fs = Ok (out, fs') →
  (l, r) ∈ out →
  ∃ u t b h,
    url r = Val u ∧ title r = Val t ∧ body r = Val b
    ∧ urlparse_netloc (Val u) = Ok h ∧ host r = Some (Val h)
    ∧ newspaper_uid r = Some (Val (_extract_newspaper_uid filename))
    ∧ n_tokens_title r = Some (Val (count_tokens t))
    ∧ n_tokens_body r = Some (Val (count_tokens b))
    ∧ Forall (fun c => Py.eqc c Re.newline = false) (Py.chars b).
Proof.
  intros Hmain Hin.
  destruct (main_output_row _ _ _ _ _ _ Hmain Hin) as (raw & Hraw).
  apply clean_record_Ok in Hraw as (u & t & b & h & _ & Hh & _ & _ & _ & ->).
  exists u, t, (normalize_body b), h. simpl.
  repeat split; try done. apply normalize_body_no_newline.
Qed.


(** X24. One record without url or without body stops the whole run: no
    table is returned and no file is written, whatever the other records
    hold. *)
Theorem X24_one_incomplete_record_stops_the_run (filename : string)
    (fs fs' : filesystem) (out : DataFrame) (contents : csv)
    (records : list RawRow) (r : RawRow) :
  fs !! filename = Some contents →
  read_csv contents = Ok records →
  r ∈ records →
  raw_url r = NaN ∨ raw_body r = NaN →
  main filename fs ≠ Ok (out, fs').
Proof.
  intros Hfile Hread Hin Hmissing Hmain.
  apply main_Ok in Hmain
    as (contents' & records' & rows & Hfile' & Hread' & _ & Hrows & _ & _).
  rewrite Hfile in Hfile'. injection Hfile' as <-.
  rewrite Hread in Hread'. injection Hread' as <-.
  apply mapM_Forall2 in Hrows.
  apply list_elem_of_lookup in Hin as [i Hi].
  destruct (Forall2_lookup_l _ _ _ _ _ Hrows Hi) as ([l row] & _ & Hclean).
  apply clean_record_Ok in Hclean as (u & t & b & h & Hu & _ & _ & Hb & _).
  destruct Hmissing as [Hm|Hm]; rewrite Hm in *; discriminate.
Qed.

End Runs.

(** ** The configuration loader *)

Section ConfigLoader.

Variable document : Type.
Variable safe_load : string → result (option document).
Variable truthy : document → bool.

(** X25. Once a call has returned a document that counts as true, every
    later call returns that document and leaves the module variable as it
    is, whatever the files hold then, even when [config.yaml] has changed
    or is gone. *)
Theorem X25_loaded_configuration_is_kept (cached loaded cached' : option document)
    (files files' : gmap string string) :
  Config.config document safe_load truthy cached files = (Ok loaded, cached') →
  Config.not_set document truthy loaded = false →
  Config.config document safe_load truthy cached' files' = (Ok loaded, cached').
Proof.
  unfold Config.config. intros Hcall Hset.
  destruct (Config.not_set document truthy cached) eqn:Hcached.
  - destruct (files !! "config.yaml"%string) as [text|]; [|discriminate].
    destruct (safe_load text) as [d|e]; [|discriminate].
    injection Hcall as <- <-. by rewrite Hset.
  - injection Hcall as <- <-. by rewrite Hcached.
Qed.

(** X26. A document that counts as false, such as the [None] of an empty
    file, is not kept: the next call opens and parses the file again, as
    a first call would. *)
Theorem X26_false_configuration_is_read_again (cached loaded cached' : option document)
    (files files' : gmap string string) :
  Config.config document safe_load truthy cached files = (Ok loaded, cached') →
  Config.not_set document truthy loaded = true →
  Config.not_set document truthy cached' = true
  ∧ fst (Config.config document safe_load truthy cached' files')
    = fst (Config.config document safe_load truthy None files').
Proof.
  unfold Config.config. intros Hcall Hunset.
  assert (Hcached' : cached' = loaded).
  { destruct (Config.not_set document truthy cached) eqn:Hcached.
    - destruct (files !! "config.yaml"%string) as [text|]; [|discriminate].
      destruct (safe_load text) as [d|e]; [|discriminate].
      by injection Hcall as <- <-.
    - by injection Hcall as <- <-. }
  subst cached'. split; [done|]. rewrite Hunset. simpl.
  destruct (files' !! "config.yaml"%string) as [text|]; [|done].
  by destruct (safe_load text).
Qed.

End ConfigLoader.

(** ** The further properties on the sample batches *)

Lemma X2_witness :
  Urllib.netloc (fun _ => true) "https://example.com/a/b" = Ok "example.com"%string
  ∧ Forall (fun c => Py.char_in c "/?#" = false) (Py.chars "example.com").
Proof.
  assert (Hhost : Urllib.netloc (fun _ => true) "https://example.com/a/b"
                  = Ok "example.com"%string) by (vm_compute; reflexivity).
  split; [exact Hhost|].
  exact (X2_host_has_no_path_query_or_fragment _ _ _ Hhost).
Defined.

Lemma X3_witness :
  Forall (fun c => Py.eqc c "/" = false) (Py.chars "no-host")
  ∧ Urllib.netloc (fun _ => true) "no-host" = Ok EmptyString.
Proof.
  assert (Hu : Forall (fun c => Py.eqc c "/" = false) (Py.chars "no-host"))
    by (repeat constructor).
  split; [exact Hu|].
  exact (X3_url_without_slash_has_empty_host _ _ Hu).
Defined.

Lemma X4_witness :
  Demo2.hosted !! 0%nat
  = Some (RangeIndex 0,
          set_host (Val (Py.str (Py.chars "n.test")))
            (mkRow (Val "https://n.test/a/hello-world") NaN (Val Demo.two_lines)
                   (Some (Val "n")) None None None)).
Proof.
  refine (@X4_host_of_http_url Demo.E
            (_add_newspaper_uid_column (frame_of_records Demo.records) "n")
            Demo2.hosted 0%nat (RangeIndex 0) _
            (Py.chars "https://") (Py.chars "n.test")
            (Py.chars "/a/hello-world") _ _ _ _ _ _ _ _ _).
  - vm_compute. reflexivity.
  - reflexivity.
  - by left.
  - reflexivity.
  - repeat constructor.
  - repeat constructor.
  - repeat constructor.
  - repeat constructor.
  - right. exists "/"%char, (Py.chars "a/hello-world"). split; reflexivity.
Defined.

Lemma X6_witness :
  _fill_missing_titles Demo2.untitled = Ok Demo2.untitled_repaired
  ∧ Forall2 (fun lr lr' =>
               fst lr' = fst lr
               ∧ present (title (snd lr'))
               ∧ snd lr' = set_title (title (snd lr')) (snd lr)
               ∧ (∀ t, title (snd lr) = Val t → lr' = lr))
            Demo2.untitled Demo2.untitled_repaired.
Proof.
  assert (Hrun : _fill_missing_titles Demo2.untitled = Ok Demo2.untitled_repaired)
    by (vm_compute; reflexivity).
  split; [exact Hrun|].
  exact (X6_title_repair_changes_only_missing_titles _ _ Hrun).
Defined.

Lemma X7_witness :
  ∃ r', Demo2.untitled_repaired !! 0%nat = Some (RangeIndex 0, r')
        ∧ title r'
          = Val (Py.replace_char "-" " " (Py.str (Py.chars "hello-world"))).
Proof.
  refine (X7_repaired_title_is_last_segment_with_spaces
            Demo2.untitled Demo2.untitled_repaired 0 (RangeIndex 0)
            (mkRow (Val "https://n.test/a/hello-world") NaN (Val "x")
                   (Some (Val "n")) (Some (Val "n.test")) None None)
            (Py.chars "https://n.test/a/") (Py.chars "hello-world")
            _ _ _ _ _ _ _).
  - vm_compute. reflexivity.
  - reflexivity.
  - reflexivity.
  - reflexivity.
  - right. exists (Py.chars "https://n.test/a"). reflexivity.
  - discriminate.
  - repeat constructor.
Defined.

Lemma X10_witness :
  _remove_new_lines_from_body Demo2.with_uids = Ok Demo2.with_uids.
Proof.
  refine (X10_removing_newlines_twice_is_once Demo2.with_uids _ _).
  vm_compute. reflexivity.
Defined.

Lemma X11_witness :
  _remove_new_lines_from_body Demo.partial = Raise TypeError.
Proof.
  refine (X11_missing_body_raises_type_error Demo.partial (Uid "b")
            (mkRow (Val "u2") (Val "three") NaN
                   (Some (Val "n")) (Some (Val "h")) None None) _ _).
  - right. left.
  - reflexivity.
Defined.

Lemma demo_partial_labels : NoDup (Pandas.index Demo.partial).
Proof.
  apply (bool_decide_unpack (NoDup (Pandas.index Demo.partial))).
  vm_compute. exact I.
Defined.

Lemma demo_partial_has_complete_row : Pandas.dropna Demo.partial ≠ [].
Proof. vm_compute. discriminate. Defined.

Lemma X12_witness :
  @_tokenize_body Demo.E Demo.partial
  = Ok (map (fun lr =>
               (fst lr,
                set_n_tokens_body
                  (if Pandas.row_has_na (snd lr) then NaN
                   else Val (@count_cell Demo.E (body (snd lr))))
                  (snd lr)))
            Demo.partial).
Proof.
  exact (@X12_tokenize_body_skips_rows_with_any_missing_value Demo.E _
           demo_partial_labels demo_partial_has_complete_row).
Defined.

Lemma X13_witness :
  bind (@_tokenize_title Demo.E Demo.partial) (@_tokenize_body Demo.E)
  = Ok (map (fun lr =>
               (fst lr,
                if Pandas.row_has_na (snd lr)
                then set_n_tokens_body NaN (set_n_tokens_title NaN (snd lr))
                else set_n_tokens_body
                       (Val (@count_cell Demo.E (body (snd lr))))
                       (set_n_tokens_title
                          (Val (@count_cell Demo.E (title (snd lr))))
                          (snd lr))))
            Demo.partial).
Proof.
  exact (@X13_rows_left_out_of_one_count_miss_both Demo.E _
           demo_partial_labels demo_partial_has_complete_row).
Defined.

Lemma X14_witness :
  @_tokenize_title Demo.E Demo2.all_incomplete = Raise ValueError
  ∧ @_tokenize_body Demo.E Demo2.all_incomplete = Raise ValueError.
Proof.
  refine (@X14_counting_raises_when_no_row_is_complete Demo.E
            Demo2.all_incomplete _).
  repeat constructor.
Defined.

Lemma X15_witness :
  @_tokenize_title Demo.E Demo2.repeated_label = Raise ValueError.
Proof.
  refine (@X15_counts_cannot_align_on_repeated_labels Demo.E
            Demo2.repeated_label _ _).
  - apply (bool_decide_unpack
             (¬ NoDup (Pandas.index (Pandas.dropna Demo2.repeated_label)))).
    vm_compute. exact I.
  - vm_compute. discriminate.
Defined.

Lemma demo_run :
  @main Demo.E Demo.filename Demo.fs
  = Ok (Demo.out, @_save_data Demo.E Demo.out Demo.filename Demo.fs).
Proof. vm_compute. reflexivity. Defined.

Lemma X20_witness :
  ∃ df, @_read_data Demo.E Demo.filename Demo.fs = Ok df
        ∧ @run_stages
            (take 8 (@spec_stages Demo.E (_extract_newspaper_uid Demo.filename)))
            df
          = Ok Demo.out.
Proof.
  exact (@X20_final_filter_removes_nothing_in_a_run Demo.E _ _ _ _ demo_run).
Defined.

Lemma X21_witness :
  Demo.out ≠ []
  ∧ (length Demo.out ≤ length Demo.records)%nat
  ∧ NoDup (map (fun lr => title (snd lr)) Demo.out).
Proof.
  refine (@X21_output_is_nonempty_bounded_and_without_repeated_title Demo.E
            _ _ _ _ (Reference.Scraped Demo.records) Demo.records
            demo_run _ _).
  - vm_compute. reflexivity.
  - reflexivity.
Defined.

Lemma X22_witness :
  ∃ u t b h,
    Val "no-host"%string = Val u ∧ Val "The Title"%string = Val t
    ∧ Val "x"%string = Val b
    ∧ @urlparse_netloc Demo.E (Val u) = Ok h
    ∧ Some (Val EmptyString) = Some (Val h)
    ∧ Some (Val "n"%string) = Some (Val (_extract_newspaper_uid Demo.filename))
    ∧ Some (Val 1%nat) = Some (Val (@count_tokens Demo.E t))
    ∧ Some (Val 1%nat) = Some (Val (@count_tokens Demo.E b))
    ∧ Forall (fun c => Py.eqc c Re.newline = false) (Py.chars b).
Proof.
  refine (@X22_output_columns_are_derived_from_the_row Demo.E _ _ _ _
            (Uid "963d1f37ad49197c11ce3486781333de")
            (mkRow (Val "no-host") (Val "The Title") (Val "x")
                   (Some (Val "n")) (Some (Val EmptyString))
                   (Some (Val 1%nat)) (Some (Val 1%nat)))
            demo_run _).
  right. left.
Defined.


Lemma X24_witness :
  @main Demo.E Demo.filename
    (Reference.disk Demo.stops Demo.filename Demo2.missing_url)
  ≠ Ok ([], Reference.disk Demo.stops Demo.filename Demo2.missing_url).
Proof.
  refine (@X24_one_incomplete_record_stops_the_run Demo.E Demo.filename
            (Reference.disk Demo.stops Demo.filename Demo2.missing_url)
            _ _ (Reference.Scraped Demo2.missing_url) Demo2.missing_url
            (mkRaw NaN (Val "Two") (Val "y")) _ _ _ _).
  - vm_compute. reflexivity.
  - reflexivity.
  - right. left.
  - by left.
Defined.

Lemma X25_witness :
  Config.config string Config.sample_load Config.sample_truthy
    (Some "sites: x"%string) ∅
  = (Ok (Some "sites: x"%string), Some "sites: x"%string).
Proof.
  refine (X25_loaded_configuration_is_kept string Config.sample_load
            Config.sample_truthy None (Some "sites: x"%string)
            (Some "sites: x"%string) (Config.sample_files "sites: x") ∅ _ _).
  - vm_compute. reflexivity.
  - reflexivity.
Defined.

Lemma X26_witness :
  Config.not_set string Config.sample_truthy (Some "{}"%string) = true
  ∧ fst (Config.config string Config.sample_load Config.sample_truthy
           (Some "{}"%string) (Config.sample_files "sites: x"))
    = fst (Config.config string Config.sample_load Config.sample_truthy None
             (Config.sample_files "sites: x")).
Proof.
  refine (X26_false_configuration_is_read_again string Config.sample_load
            Config.sample_truthy None (Some "{}"%string) (Some "{}"%string)
            (Config.sample_files "{}")
            (Config.sample_files "sites: x") _ _).
  - vm_compute. reflexivity.
  - reflexivity.
Defined.

Lemma X5_witness :
  Forall2 (fun lr lr' =>
             ∃ u h, url (snd lr) = Val u
                    ∧ Urllib.netloc (@check_bracketed_host Demo.E) u = Ok h
                    ∧ lr' = (fst lr, set_host (Val h) (snd lr)))
          Demo2.untitled Demo2.untitled.
Proof.
  refine (proj1 (@X5_extract_host_returns_iff_every_url_parses Demo.E
                   Demo2.untitled Demo2.untitled) _).
  vm_compute. reflexivity.
Defined.

Lemma X8_witness :
  Demo2.untitled ≠ []
  ∧ Forall2 (fun lr lr' =>
               ∃ u, url (snd lr) = Val u ∧ lr' = (Uid (assign_id u), snd lr))
            Demo2.untitled Demo2.with_uids.
Proof.
  refine (proj1 (X8_uids_returned_iff_rows_and_urls
                   Demo2.untitled Demo2.with_uids) _).
  vm_compute. reflexivity.
Defined.

Lemma X9_witness :
  Forall2 (fun lr lr' =>
             ∃ b b', body (snd lr) = Val b
                     ∧ lr' = (fst lr, set_body (Val b') (snd lr))
                     ∧ b' = Py.str (map replace_newline (Py.chars b))
                     ∧ Forall (fun c => Py.eqc c Re.newline = false) (Py.chars b')
                     ∧ String.length b' = String.length b)
          Demo2.with_uids Demo2.with_uids.
Proof.
  refine (proj1 (X9_bodies_lose_their_newlines
                   Demo2.with_uids Demo2.with_uids) _).
  vm_compute. reflexivity.
Defined.

Lemma X19_witness :
  ∃ contents records rows,
    Demo.fs !! Demo.filename = Some contents
    ∧ @read_csv Demo.E contents = Ok records
    ∧ records ≠ []
    ∧ Forall2 (fun r lr =>
                 @clean_record Demo.E (_extract_newspaper_uid Demo.filename) r
                 = Ok lr)
              records rows
    ∧ Demo.out = _remove_duplicate_entries rows title
    ∧ @_save_data Demo.E Demo.out Demo.filename Demo.fs
      = <[String.append "clean_" Demo.filename := @to_csv Demo.E Demo.out]> Demo.fs.
Proof.
  exact (@X19_returned_table_is_the_deduplicated_cleaned_records Demo.E
           _ _ _ _ demo_run).
Defined.
